(** * FilterHelper (public/scripts/filters.js): a shallow embedding

    The file embeds the [FilterHelper] class of [public/scripts/filters.js]
    together with the fragment of the JavaScript runtime its methods rely on,
    and proves the properties of the filter pipeline, of the individual
    filter stages and of the criteria store.

    Modelling conventions.
    - JavaScript values are the first-order values below: [undefined],
      [null], booleans, integer-valued numbers (identifiers and lengths, in
      the range where ToString is the decimal expansion), [NaN], strings,
      arrays and plain objects.  Functions, symbols, getters and cyclic structures are
      outside the universe.  Every array and object carries the address of
      its heap cell: [===] and [Array.prototype.includes] compare objects by
      identity, not by contents.
    - Strings are sequences of 8-bit code units; case folding and the notion
      of white space are the ASCII ones.
    - A plain object lists its own properties in enumeration order.  Objects
      used as string-keyed tables ([filterData], [tag_map]) are finite maps;
      their keys are ordinary names (names that [Object.prototype] gives a
      meaning of its own, such as [__proto__], are not filter types).
    - The list handed to a filter is an array without holes.
    - A computation that may raise an exception lives in [result]; the only
      exception the modelled code can raise is [TypeError]. *)

From Stdlib Require Import ZArith String Ascii List Bool Lia.
From stdpp Require Import base option list gmap strings pretty.
Import ListNotations.

Set Warnings "-register-all".

Local Open Scope string_scope.
Local Open Scope Z_scope.
Local Open Scope list_scope.

(** ** Values *)

Definition loc := nat.

Inductive value : Type :=
| VUndefined
| VNull
| VBool (b : bool)
| VNum (z : Z)
| VNaN
| VStr (s : string)
| VArr (r : loc) (elems : list value)
| VObj (r : loc) (props : list (string * value)).

Arguments VArr r%_nat_scope elems%_list_scope.
Arguments VObj r%_nat_scope props%_list_scope.

(** ** Exceptions *)

Inductive exn : Type := TypeError.

Inductive result (A : Type) : Type :=
| Ok (a : A)
| Throw (e : exn).

Arguments Ok {A} a.
Arguments Throw {A} e.

Definition bind {A B} (m : result A) (k : A -> result B) : result B :=
  match m with
  | Ok a => k a
  | Throw e => Throw e
  end.

Notation "'do' x <- m ; k" := (bind m (fun x => k))
  (at level 10, x name, m at level 100, k at level 200).

(** [arr.filter(cb)]: the callback runs on every element, left to right;
    the first exception aborts the call. *)
Fixpoint filterM {A} (cb : A -> result bool) (l : list A) : result (list A) :=
  match l with
  | [] => Ok []
  | x :: l' =>
      do b <- cb x;
      do r <- filterM cb l';
      Ok (if b then x :: r else r)
  end.

(** [arr.map(cb)]. *)
Fixpoint mapM {A B} (cb : A -> result B) (l : list A) : result (list B) :=
  match l with
  | [] => Ok []
  | x :: l' =>
      do y <- cb x;
      do r <- mapM cb l';
      Ok (y :: r)
  end.

(** [arr.reduce(cb, init)]. *)
Fixpoint reduceM {A B} (cb : B -> A -> result B) (l : list A) (acc : B) : result B :=
  match l with
  | [] => Ok acc
  | x :: l' => do acc' <- cb acc x; reduceM cb l' acc'
  end.

(** ** The runtime operations the class uses *)

Module JS.

(** ToBoolean. *)
Definition truthy (v : value) : bool :=
  match v with
  | VUndefined | VNull | VNaN => false
  | VBool b => b
  | VNum z => negb (z =? 0)
  | VStr s => negb (String.eqb s EmptyString)
  | VArr _ _ | VObj _ _ => true
  end.

Definition nullish (v : value) : bool :=
  match v with
  | VUndefined | VNull => true
  | _ => false
  end.

(** [a === b]. *)
Definition strict_eq (a b : value) : bool :=
  match a, b with
  | VUndefined, VUndefined => true
  | VNull, VNull => true
  | VBool x, VBool y => Bool.eqb x y
  | VNum x, VNum y => x =? y
  | VStr x, VStr y => String.eqb x y
  | VArr r _, VArr r' _ => Nat.eqb r r'
  | VObj r _, VObj r' _ => Nat.eqb r r'
  | _, _ => false
  end.

(** SameValueZero, the comparison of [Array.prototype.includes] and of
    [Set]: as [===], except that [NaN] equals itself. *)
Definition same_value_zero (a b : value) : bool :=
  match a, b with
  | VNaN, VNaN => true
  | _, _ => strict_eq a b
  end.

(** [arr.includes(x)]. *)
Definition includes (arr : list value) (x : value) : bool :=
  existsb (fun y => same_value_zero y x) arr.

(** Own property of a plain object; [undefined] when absent. *)
Fixpoint own_prop (k : string) (props : list (string * value)) : value :=
  match props with
  | [] => VUndefined
  | (k', v) :: ps => if String.eqb k' k then v else own_prop k ps
  end.

(** [v.k] for the property names the class reads ([type], [item], [id],
    [uid], [name], [fav], [avatar], [characters], [selected], [excluded],
    [length]).  Reading a property of [undefined] or [null] raises a
    TypeError; primitives are boxed and have none of these properties, save
    the [length] of a string. *)
Definition get (v : value) (k : string) : result value :=
  match v with
  | VUndefined | VNull => Throw TypeError
  | VObj _ props => Ok (own_prop k props)
  | VArr _ elems =>
      Ok (if String.eqb k "length" then VNum (Z.of_nat (List.length elems)) else VUndefined)
  | VStr s =>
      Ok (if String.eqb k "length" then VNum (Z.of_nat (String.length s)) else VUndefined)
  | VBool _ | VNum _ | VNaN => Ok VUndefined
  end.

(** [n > 0] for [n] the [length] of an array or of a string. *)
Definition gt_zero (n : value) : bool :=
  match n with
  | VNum z => 0 <? z
  | _ => false
  end.

(** [Array.isArray(v)]. *)
Definition isArray (v : value) : bool :=
  match v with
  | VArr _ _ => true
  | _ => false
  end.

(** The elements joined with commas ([Array.prototype.join]). *)
Fixpoint join (parts : list string) : string :=
  match parts with
  | [] => EmptyString
  | [p] => p
  | p :: ps => p +:+ "," +:+ join ps
  end.

(** [String(v)] (ToString).  A number is written in decimal, as JavaScript
    writes the integers of magnitude below 10^21. *)
Fixpoint String_ (v : value) : string :=
  match v with
  | VUndefined => "undefined"
  | VNull => "null"
  | VBool true => "true"
  | VBool false => "false"
  | VNum z => pretty z
  | VNaN => "NaN"
  | VStr s => s
  | VArr _ elems =>
      join (List.map (fun x => match x with
                               | VUndefined | VNull => EmptyString
                               | _ => String_ x
                               end) elems)
  | VObj _ _ => "[object Object]"
  end.

(** White space and line terminators of an ASCII string. *)
Definition is_space (c : ascii) : bool :=
  let n := nat_of_ascii c in
  ((n =? 32) || ((9 <=? n) && (n <=? 13)))%nat.

Fixpoint trimStart (s : string) : string :=
  match s with
  | String c s' => if is_space c then trimStart s' else s
  | EmptyString => EmptyString
  end.

Fixpoint trimEnd (s : string) : string :=
  match s with
  | String c s' =>
      match trimEnd s' with
      | EmptyString => if is_space c then EmptyString else String c EmptyString
      | t => String c t
      end
  | EmptyString => EmptyString
  end.

(** [s.trim()], for an ASCII string [s]. *)
Definition trim (s : string) : string := trimEnd (trimStart s).

Definition lower_char (c : ascii) : ascii :=
  let n := nat_of_ascii c in
  if ((65 <=? n) && (n <=? 90))%nat then ascii_of_nat (n + 32) else c.

(** [s.toLowerCase()], for an ASCII string [s]. *)
Fixpoint toLowerCase (s : string) : string :=
  match s with
  | String c s' => String (lower_char c) (toLowerCase s')
  | EmptyString => EmptyString
  end.

(** [s.includes(sub)] on strings. *)
Fixpoint str_includes (s sub : string) : bool :=
  String.prefix sub s ||
  match s with
  | String _ s' => str_includes s' sub
  | EmptyString => false
  end.

(** [v.trim()] as a method call: only strings have the method. *)
Definition call_trim (v : value) : result string :=
  match v with
  | VStr s => Ok (trim s)
  | _ => Throw TypeError
  end.

(** [v.toLowerCase()] as a method call. *)
Definition call_toLowerCase (v : value) : result string :=
  match v with
  | VStr s => Ok (toLowerCase s)
  | _ => Throw TypeError
  end.

(** [v.map(cb)] as a method call: only arrays have the method. *)
Definition call_map {B} (v : value) (cb : value -> result B) : result (list B) :=
  match v with
  | VArr _ elems => mapM cb elems
  | _ => Throw TypeError
  end.

(** [a.concat(x)]: an array argument is spread, anything else is appended
    as one element. *)
Definition concat (a : list value) (x : value) : list value :=
  match x with
  | VArr _ elems => (a ++ elems)%list
  | _ => (a ++ [x])%list
  end.

(** [[...new Set(l)]]: the first occurrence of every value, in order. *)
Definition set_values (l : list value) : list value :=
  fold_left (fun seen x => if includes seen x then seen else (seen ++ [x])%list) l [].

(** Value of a digit in the given radix. *)
Definition digit (radix : Z) (c : ascii) : option Z :=
  let n := Z.of_nat (nat_of_ascii c) in
  let d := if (48 <=? n) && (n <=? 57) then n - 48
           else if (97 <=? n) && (n <=? 122) then n - 87
           else if (65 <=? n) && (n <=? 90) then n - 55
           else radix in
  if d <? radix then Some d else None.

(** The longest prefix of digits, read in the radix; [None] if empty. *)
Fixpoint digits (radix : Z) (acc : option Z) (s : string) : option Z :=
  match s with
  | String c s' =>
      match digit radix c with
      | Some d => digits radix (Some (radix * default 0 acc + d)) s'
      | None => acc
      end
  | EmptyString => acc
  end.

(** [parseInt(v)] with no radix argument, for a value whose digits give an
    integer that a double holds exactly. *)
Definition parseInt (v : value) : value :=
  let s := trimStart (String_ v) in
  let '(neg, s) :=
    match s with
    | String "-" s' => (true, s')
    | String "+" s' => (false, s')
    | _ => (false, s)
    end in
  let '(radix, s) :=
    match s with
    | String "0" (String "x" s') => (16, s')
    | String "0" (String "X" s') => (16, s')
    | _ => (10, s)
    end in
  match digits radix None s with
  | Some n => VNum (if neg : bool then - n else n)
  | None => VNaN
  end.

(** [v == "true"]: a string compares as a string; a number or a boolean is
    compared with ToNumber("true"), which is [NaN]; an array or an object is
    first converted to a string. *)
Definition loose_eq_true (v : value) : bool :=
  match v with
  | VStr s => String.eqb s "true"
  | VUndefined | VNull | VBool _ | VNum _ | VNaN => false
  | VArr _ _ | VObj _ _ => String.eqb (String_ v) "true"
  end.

Definition hex_digit (n : nat) : ascii :=
  ascii_of_nat (if (n <? 10)%nat then 48 + n else 87 + n).

Definition dquote : ascii := ascii_of_nat 34.
Definition backslash : ascii := ascii_of_nat 92.

Definition escape (c : ascii) : string := String backslash (String c EmptyString).

(** QuoteJSONString, one code unit. *)
Definition json_escape (c : ascii) : string :=
  let n := nat_of_ascii c in
  if (n =? 34)%nat then escape dquote
  else if (n =? 92)%nat then escape backslash
  else if (n =? 8)%nat then escape "b"
  else if (n =? 9)%nat then escape "t"
  else if (n =? 10)%nat then escape "n"
  else if (n =? 12)%nat then escape "f"
  else if (n =? 13)%nat then escape "r"
  else if (n <? 32)%nat then
    String backslash
      ("u00" +:+ String (hex_digit (n / 16)) (String (hex_digit (n mod 16)) EmptyString))
  else String c EmptyString.

Fixpoint json_escape_all (s : string) : string :=
  match s with
  | String c s' => json_escape c +:+ json_escape_all s'
  | EmptyString => EmptyString
  end.

Definition json_quote (s : string) : string :=
  String dquote (json_escape_all s +:+ String dquote EmptyString).

(** [JSON.stringify(v)]; [None] stands for the result [undefined].  An
    [undefined] array element is written [null], an [undefined] property is
    left out, [NaN] is written [null]. *)
Fixpoint JSON_stringify (v : value) : option string :=
  match v with
  | VUndefined => None
  | VNull | VNaN => Some "null"
  | VBool true => Some "true"
  | VBool false => Some "false"
  | VNum z => Some (pretty z)
  | VStr s => Some (json_quote s)
  | VArr _ elems =>
      Some ("[" +:+ join (List.map (fun x => default "null" (JSON_stringify x)) elems) +:+ "]")
  | VObj _ props =>
      Some ("{" +:+
            join (List.flat_map
                    (fun p => match p with
                              | (k, x) =>
                                  match JSON_stringify x with
                                  | Some j => [json_quote k +:+ ":" +:+ j]
                                  | None => []
                                  end
                              end) props) +:+ "}")
  end.

End JS.

Import JS.

(** ** What the module imports

    [power-user.js] and [tags.js] are not part of the file under
    verification: the fuzzy matchers, the fuzzy-search switch and the tag
    index are taken as given. *)
Class Imports : Type := {
  (** [power_user.fuzzy_search], as a truth value *)
  fuzzy_search : bool;
  (** [fuzzySearchCharacters(term)]: the matching character identifiers *)
  fuzzySearchCharacters : string -> list value;
  (** [fuzzySearchGroups(term)]: the matching group identifiers *)
  fuzzySearchGroups : string -> list value;
  (** [fuzzySearchWorldInfo(data, term)]: the matching uids *)
  fuzzySearchWorldInfo : list value -> value -> list value;
  (** [tag_map]: lookup key to the tags attached to it *)
  tag_map : gmap string value
}.

(** ** FILTER_TYPES *)

Module FILTER_TYPES.
Definition SEARCH : string := "search".
Definition TAG : string := "tag".
Definition FAV : string := "fav".
Definition GROUP : string := "group".
Definition WORLD_INFO_SEARCH : string := "world_info_search".
End FILTER_TYPES.

(** ** The class *)

(** The methods held by [filterFunctions]. *)
Inductive method : Type :=
| SearchFilter
| GroupFilter
| FavFilter
| TagFilter
| WiSearchFilter
| HideCharactersAlreadyInDeck.

(** An instance: its two object-valued fields, and the number of times the
    [onDataChanged] callback has been called so far.  The callback is the
    caller's function; a call is recorded, what the callback does is not
    part of the class. *)
Record FilterHelper : Type := mkFilterHelper {
  filterFunctions : list (string * method);
  filterData : gmap string value;
  dataChanged : nat
}.

(** [obj[k]] on an object used as a table, for a key that
    [Object.prototype] does not define: the own property, and [undefined]
    when there is none. *)
Definition lookup_key (obj : gmap string value) (k : string) : value :=
  default VUndefined (obj !! k).

(** The field initialisers and the constructor. *)
Definition init_filterFunctions : list (string * method) :=
  [ (FILTER_TYPES.SEARCH, SearchFilter);
    (FILTER_TYPES.GROUP, GroupFilter);
    (FILTER_TYPES.FAV, FavFilter);
    (FILTER_TYPES.TAG, TagFilter);
    (FILTER_TYPES.WORLD_INFO_SEARCH, WiSearchFilter);
    ("hide_characters_present_in_deck", HideCharactersAlreadyInDeck) ].

Definition init_filterData : gmap string value :=
  <[FILTER_TYPES.SEARCH := VStr EmptyString]>
  (<[FILTER_TYPES.GROUP := VBool false]>
  (<[FILTER_TYPES.FAV := VBool false]>
  (<[FILTER_TYPES.TAG := VObj 0 [("excluded", VArr 1 []); ("selected", VArr 2 [])]]>
  (<[FILTER_TYPES.WORLD_INFO_SEARCH := VStr EmptyString]> ∅)))).

Definition new_FilterHelper : FilterHelper :=
  {| filterFunctions := init_filterFunctions;
     filterData := init_filterData;
     dataChanged := 0 |}.

Section Methods.

Context `{Imports}.

(** *** hideCharactersAlreadyInDeck *)

(** [item => 'deck' === item.type] *)
Definition isDeck (item : value) : result bool :=
  do ty <- get item "type";
  Ok (strict_eq (VStr "deck") ty).

(** [(a, b) => a.concat(b.item.characters)] *)
Definition addCharacters (a : list value) (b : value) : result (list value) :=
  do item <- get b "item";
  do characters <- get item "characters";
  Ok (concat a characters).

(** [item => false === characterIds.includes(String(item.id))] *)
Definition notIn (characterIds : list value) (item : value) : result bool :=
  do id <- get item "id";
  Ok (Bool.eqb false (includes characterIds (VStr (String_ id)))).

Definition hideCharactersAlreadyInDeck (data : list value) : result (list value) :=
  do decks <- filterM isDeck data;
  do members <- reduceM addCharacters decks [];
  let characterIds := set_values members in
  filterM (notIn characterIds) data.

(** *** wiSearchFilter *)

(** [entity => fuzzySearchResults.includes(entity.uid)] *)
Definition isFound (fuzzySearchResults : list value) (entity : value) : result bool :=
  do uid <- get entity "uid";
  Ok (includes fuzzySearchResults uid).

Definition wiSearchFilter (this : FilterHelper) (data : list value) : result (list value) :=
  let term := lookup_key (filterData this) FILTER_TYPES.WORLD_INFO_SEARCH in
  if negb (truthy term) then Ok data
  else
    let fuzzySearchResults := fuzzySearchWorldInfo data term in
    filterM (isFound fuzzySearchResults) data.

(** *** tagFilter *)

Definition TAG_LOGIC_AND : bool := true.

Definition isElementTagged (entity tagId : value) : result bool :=
  do ty <- get entity "type";
  let isCharacter := strict_eq ty (VStr "character") in
  do lookupValue <-
    (if isCharacter
     then do item <- get entity "item"; get item "avatar"
     else do id <- get entity "id"; Ok (VStr (String_ id)));
  let tags := lookup_key tag_map (String_ lookupValue) in
  Ok (isArray tags &&
      match tags with
      | VArr _ elems => includes elems tagId
      | _ => false
      end).

Definition getIsTagged (selected excluded entity : value) : result bool :=
  do tagFlags <- call_map selected (isElementTagged entity);
  let trueFlags := List.filter (fun x : bool => x) tagFlags in
  let isTagged :=
    if TAG_LOGIC_AND
    then (List.length tagFlags =? List.length trueFlags)%nat
    else (0 <? List.length trueFlags)%nat in
  do excludedTagFlags <- call_map excluded (isElementTagged entity);
  let isExcluded := existsb (Bool.eqb true) excludedTagFlags in
  if isExcluded then Ok false
  else
    do selected_length <- get selected "length";
    if gt_zero selected_length && negb isTagged then Ok false
    else Ok true.

Definition tagFilter (this : FilterHelper) (data : list value) : result (list value) :=
  let criteria := lookup_key (filterData this) FILTER_TYPES.TAG in
  do selected <- get criteria "selected";
  do excluded <- get criteria "excluded";
  do selected_length <- get selected "length";
  do nothing_to_do <-
    (if negb (truthy selected_length)
     then do excluded_length <- get excluded "length";
          Ok (negb (truthy excluded_length))
     else Ok false);
  if nothing_to_do : bool then Ok data
  else filterM (getIsTagged selected excluded) data.

(** *** favFilter *)

(** [entity => entity.item.fav || entity.item.fav == "true"], as the truth
    value [filter] takes from it *)
Definition isFav (entity : value) : result bool :=
  do item <- get entity "item";
  do fav <- get item "fav";
  if truthy fav then Ok true
  else
    do item' <- get entity "item";
    do fav' <- get item' "fav";
    Ok (loose_eq_true fav').

Definition favFilter (this : FilterHelper) (data : list value) : result (list value) :=
  if negb (truthy (lookup_key (filterData this) FILTER_TYPES.FAV)) then Ok data
  else filterM isFav data.

(** *** groupFilter *)

(** [entity => entity.type === 'group'] *)
Definition isGroupEntity (entity : value) : result bool :=
  do ty <- get entity "type";
  Ok (strict_eq ty (VStr "group")).

Definition groupFilter (this : FilterHelper) (data : list value) : result (list value) :=
  if negb (truthy (lookup_key (filterData this) FILTER_TYPES.GROUP)) then Ok data
  else filterM isGroupEntity data.

(** *** searchFilter *)

(** [entity.item?.name?.toLowerCase()?.includes(searchValue) || false] *)
Definition nameIncludes (searchValue : string) (entity : value) : result bool :=
  do item <- get entity "item";
  if nullish item then Ok false
  else
    do name <- get item "name";
    if nullish name then Ok false
    else
      do lowered <- call_toLowerCase name;
      Ok (str_includes lowered searchValue || false).

Definition getIsValidSearch (searchValue : string)
    (fuzzySearchCharactersResults fuzzySearchGroupsResults : list value)
    (entity : value) : result bool :=
  do ty <- get entity "type";
  let isGroup := strict_eq ty (VStr "group") in
  let isCharacter := strict_eq ty (VStr "character") in
  if fuzzy_search then
    if isCharacter then
      do id <- get entity "id";
      Ok (includes fuzzySearchCharactersResults (parseInt id))
    else if isGroup then
      do id <- get entity "id";
      Ok (includes fuzzySearchGroupsResults (VStr (String_ id)))
    else Ok false
  else nameIncludes searchValue entity.

Definition searchFilter (this : FilterHelper) (data : list value) : result (list value) :=
  let criteria := lookup_key (filterData this) FILTER_TYPES.SEARCH in
  if negb (truthy criteria) then Ok data
  else
    do trimmed <- call_trim criteria;
    let searchValue := toLowerCase trimmed in
    let fuzzySearchCharactersResults :=
      if fuzzy_search then fuzzySearchCharacters searchValue else [] in
    let fuzzySearchGroupsResults :=
      if fuzzy_search then fuzzySearchGroups searchValue else [] in
    filterM (getIsValidSearch searchValue fuzzySearchCharactersResults
               fuzzySearchGroupsResults) data.

(** *** setFilterData, getFilterData *)

(** [a !== b] for two results of [JSON.stringify] *)
Definition json_differs (a b : option string) : bool :=
  match a, b with
  | Some x, Some y => negb (String.eqb x y)
  | None, None => false
  | _, _ => true
  end.

Definition setFilterData (this : FilterHelper) (filterType : string) (data : value)
    (suppressDataChanged : bool) : FilterHelper :=
  let oldData := lookup_key (filterData this) filterType in
  let this' :=
    {| filterFunctions := filterFunctions this;
       filterData := <[filterType := data]> (filterData this);
       dataChanged := dataChanged this |} in
  if json_differs (JSON_stringify oldData) (JSON_stringify data) && negb suppressDataChanged
  then {| filterFunctions := filterFunctions this';
          filterData := filterData this';
          dataChanged := S (dataChanged this') |}
  else this'.

Definition getFilterData (this : FilterHelper) (filterType : string) : result value :=
  Ok (lookup_key (filterData this) filterType).

(** *** applyFilters *)

(** [fn(data)] for a bound method [fn] of the instance *)
Definition call (this : FilterHelper) (fn : method) (data : list value) : result (list value) :=
  match fn with
  | SearchFilter => searchFilter this data
  | GroupFilter => groupFilter this data
  | FavFilter => favFilter this data
  | TagFilter => tagFilter this data
  | WiSearchFilter => wiSearchFilter this data
  | HideCharactersAlreadyInDeck => hideCharactersAlreadyInDeck data
  end.

Definition applyFilters (this : FilterHelper) (data : list value) : result (list value) :=
  reduceM (fun data fn => call this fn data)
          (List.map snd (filterFunctions this)) data.

End Methods.

(** ** Reference predicates

    The vocabulary of the specification: the kind, identifier and payload
    of an entry, the members of a deck, and what it means for an entry to
    match a tag or a search string. *)

Module Spec.

(** A field of an entry; [undefined] when the entry has no such field. *)
Definition field (v : value) (k : string) : value :=
  match get v k with
  | Ok x => x
  | Throw _ => VUndefined
  end.

Definition is_kind (name : string) (e : value) : bool :=
  match field e "type" with
  | VStr s => String.eqb s name
  | _ => false
  end.

Definition payload (e : value) : value := field e "item".

Definition identifier (e : value) : value := field e "id".

(** The entry is an object or a primitive: its fields can be read. *)
Definition is_entry (e : value) : bool := negb (nullish e).

(** The entry carries a payload whose fields can be read. *)
Definition has_payload (e : value) : bool :=
  is_entry e && negb (nullish (payload e)).

(** The name of the payload, when the payload has one and it is a string. *)
Definition payload_name (e : value) : option string :=
  match field (payload e) "name" with
  | VStr n => Some n
  | _ => None
  end.

(** The name field is a string, or is missing. *)
Definition name_well_typed (e : value) : bool :=
  match field (payload e) "name" with
  | VStr _ | VUndefined | VNull => true
  | _ => false
  end.

(** Exact search: the lower-cased name contains the search value. *)
Definition name_matches (searchValue : string) (e : value) : bool :=
  match payload_name e with
  | Some n => str_includes (toLowerCase n) searchValue
  | None => false
  end.

(** Fuzzy search: a character whose identifier, parsed as an integer, is
    among the character matches, or a group whose identifier, as a string,
    is among the group matches. *)
Definition fuzzy_matches (characters groups : list value) (e : value) : bool :=
  (is_kind "character" e && includes characters (parseInt (identifier e))) ||
  (is_kind "group" e && includes groups (VStr (String_ (identifier e)))).

(** The members a deck contributes, as stored; a member list that is not
    an array counts as a single member. *)
Definition members_of (deck : value) : list value :=
  match field (payload deck) "characters" with
  | VArr _ ms => ms
  | m => [m]
  end.

Definition deck_members (data : list value) : list value :=
  flat_map members_of (List.filter (is_kind "deck") data).

(** The stringified identifier of the entry is one of the members. *)
Definition in_deck (members : list value) (e : value) : bool :=
  includes members (VStr (String_ (identifier e))).

(** The same with the members stringified as well. *)
Definition in_deck_stringified (members : list value) (e : value) : bool :=
  existsb (String.eqb (String_ (identifier e))) (List.map String_ members).

(** Deck entries carry a payload. *)
Definition deck_well_formed (e : value) : bool :=
  is_entry e && (negb (is_kind "deck" e) || negb (nullish (payload e))).

Section Tags.

Context `{Imports}.

(** The key under which the tag index files the entry. *)
Definition tag_key (e : value) : string :=
  if is_kind "character" e then String_ (field (payload e) "avatar")
  else String_ (identifier e).

(** The entry matches the tag: the index has an array for its key, and
    the array contains the tag. *)
Definition has_tag (e tag : value) : bool :=
  match tag_map !! tag_key e with
  | Some (VArr _ tags) => includes tags tag
  | _ => false
  end.

(** Kept by the tag criterion: no excluded tag matches and, unless nothing
    is selected, every selected tag matches. *)
Definition tag_keeps (selected excluded : list value) (e : value) : bool :=
  negb (existsb (has_tag e) excluded) &&
  (match selected with [] => true | _ => false end || forallb (has_tag e) selected).

End Tags.

(** Character entries carry a payload. *)
Definition character_well_formed (e : value) : bool :=
  is_entry e && (negb (is_kind "character" e) || negb (nullish (payload e))).

(** Deep structural equality: primitives by value, arrays element by
    element, objects by their sets of properties, whatever the order. *)
Fixpoint deep_equal (a b : value) {struct a} : bool :=
  match a, b with
  | VArr _ xs, VArr _ ys =>
      (fix all2 (xs ys : list value) {struct xs} : bool :=
         match xs, ys with
         | [], [] => true
         | x :: xs', y :: ys' => deep_equal x y && all2 xs' ys'
         | _, _ => false
         end) xs ys
  | VObj _ ps, VObj _ qs =>
      (List.length ps =? List.length qs)%nat &&
      (fix all (ps : list (string * value)) {struct ps} : bool :=
         match ps with
         | [] => true
         | (k, x) :: ps' =>
             existsb (fun q => String.eqb (fst q) k) qs &&
             deep_equal x (own_prop k qs) && all ps'
         end) ps
  | VArr _ _, _ | VObj _ _, _ | _, VArr _ _ | _, VObj _ _ => false
  | _, _ => same_value_zero a b
  end.

(** The criteria at their initial values. *)
Definition default_criteria (filterData : gmap string value) : Prop :=
  filterData !! FILTER_TYPES.SEARCH = Some (VStr EmptyString) /\
  filterData !! FILTER_TYPES.GROUP = Some (VBool false) /\
  filterData !! FILTER_TYPES.FAV = Some (VBool false) /\
  (exists tag r1 r2,
      filterData !! FILTER_TYPES.TAG = Some tag /\
      get tag "selected" = Ok (VArr r1 []) /\
      get tag "excluded" = Ok (VArr r2 [])) /\
  filterData !! FILTER_TYPES.WORLD_INFO_SEARCH = Some (VStr EmptyString).

End Spec.

(** ** Sample data *)

Module Sample.

(** No fuzzy search, no tags. *)
Definition plain : Imports :=
  {| fuzzy_search := false;
     fuzzySearchCharacters := fun _ => [];
     fuzzySearchGroups := fun _ => [];
     fuzzySearchWorldInfo := fun _ _ => [];
     tag_map := ∅ |}.

Definition character (r : loc) (id : Z) (name : string) (fav : bool) : value :=
  VObj r [("type", VStr "character"); ("id", VNum id);
          ("item", VObj (r + 100)%nat [("name", VStr name); ("fav", VBool fav);
                                   ("avatar", VStr (name +:+ ".png"))])].

Arguments character r%_nat_scope id%_Z_scope name%_string_scope fav%_bool_scope.

Definition alice : value := character 1 1 "Alice" true.
Definition bob : value := character 2 2 "Bob" false.

Definition group_g1 : value :=
  VObj 3 [("type", VStr "group"); ("id", VStr "g1");
          ("item", VObj 103 [("name", VStr "Alice's Group")])].

(** [{type: 'deck', item: {characters: ['1']}}] *)
Definition deck : value :=
  VObj 4 [("type", VStr "deck");
          ("item", VObj 104 [("characters", VArr 204 [VStr "1"])])].

(** A deck listing its member by number: [characters: [1]]. *)
Definition deck_numeric : value :=
  VObj 5 [("type", VStr "deck");
          ("item", VObj 105 [("characters", VArr 205 [VNum 1])])].

(** Entries without a payload. *)
Definition bare_character : value := VObj 6 [("type", VStr "character"); ("id", VNum 6)].
Definition bare_deck : value := VObj 7 [("type", VStr "deck"); ("id", VNum 7)].

(** A payload whose name is a number. *)
Definition numbered : value :=
  VObj 8 [("type", VStr "character"); ("id", VNum 8); ("item", VObj 108 [("name", VNum 8)])].

(** Sample tag index: Alice carries the tags "A" and "nsfw", Bob the tag
    "A"; the group has no entry. *)
Definition tagged : Imports :=
  {| fuzzy_search := false;
     fuzzySearchCharacters := fun _ => [];
     fuzzySearchGroups := fun _ => [];
     fuzzySearchWorldInfo := fun _ _ => [];
     tag_map := <["Alice.png" := VArr 50 [VStr "A"; VStr "nsfw"]]>
                (<["Bob.png" := VArr 51 [VStr "A"]]> ∅) |}.

Definition tag_criteria (selected excluded : list value) : value :=
  VObj 60 [("excluded", VArr 61 excluded); ("selected", VArr 62 selected)].

(** Fuzzy search on: the characters 1 and 7 and the group "g1" match
    whatever the term. *)
Definition fuzzy : Imports :=
  {| fuzzy_search := true;
     fuzzySearchCharacters := fun _ => [VNum 1; VNum 7];
     fuzzySearchGroups := fun _ => [VStr "g1"];
     fuzzySearchWorldInfo := fun _ _ => [];
     tag_map := ∅ |}.

(** An entry of another kind, and one whose payload has no name. *)
Definition tag_entry : value :=
  VObj 9 [("type", VStr "tag"); ("id", VNum 1); ("item", VObj 109 [("name", VStr "alice")])].
Definition nameless : value :=
  VObj 10 [("type", VStr "character"); ("id", VNum 10); ("item", VObj 110 [])].

Definition searching (term : string) : FilterHelper :=
  setFilterData new_FilterHelper FILTER_TYPES.SEARCH (VStr term) false.

(** A matcher that looks at the term only. *)
Definition by_term : Imports :=
  {| fuzzy_search := false;
     fuzzySearchCharacters := fun _ => [];
     fuzzySearchGroups := fun _ => [];
     fuzzySearchWorldInfo := fun _ _ => [VNum 1];
     tag_map := ∅ |}.

Definition world_info (r : loc) (uid : Z) : value := VObj r [("uid", VNum uid)].

Arguments world_info r%_nat_scope uid%_Z_scope.

Definition searching_world_info (term : string) : FilterHelper :=
  setFilterData new_FilterHelper FILTER_TYPES.WORLD_INFO_SEARCH (VStr term) false.

Definition favourites : FilterHelper :=
  setFilterData new_FilterHelper FILTER_TYPES.FAV (VBool true) false.

Definition tagging (selected excluded : list value) : FilterHelper :=
  setFilterData new_FilterHelper FILTER_TYPES.TAG (tag_criteria selected excluded) false.

(** The default tag criterion with its two properties in the other
    order: [{selected: [], excluded: []}]. *)
Definition tag_criteria_reordered : value :=
  VObj 70 [("selected", VArr 71 []); ("excluded", VArr 72 [])].

(** Modelled from the spec: [fuzzySearchWorldInfo] is absent from the
    sources; the specification has it return the uids of the entries of the
    list it is given that match the term.  Here an entry matches when its
    [content] contains the term. *)
Definition content_matches (term e : value) : bool :=
  match Spec.field e "content", term with
  | VStr content, VStr t => str_includes content t
  | _, _ => false
  end.

Definition by_content : Imports :=
  {| fuzzy_search := false;
     fuzzySearchCharacters := fun _ => [];
     fuzzySearchGroups := fun _ => [];
     fuzzySearchWorldInfo := fun data term =>
       List.map (fun e => Spec.field e "uid") (List.filter (content_matches term) data);
     tag_map := ∅ |}.

(** Two entries with an identifier and a content, and no uid. *)
Definition note (r : loc) (id : Z) (content : string) : value :=
  VObj r [("type", VStr "character"); ("id", VNum id); ("content", VStr content);
          ("item", VObj (r + 100)%nat [("name", VStr content)])].

Arguments note r%_nat_scope id%_Z_scope content%_string_scope.

Definition note_alice : value := note 30 1 "alice".
Definition note_bob : value := note 31 2 "bob".

(** Characters whose identifier is a string: one that starts, after white
    space, with the numeral 7, and one that holds no numeral. *)
Definition seven : value :=
  VObj 40 [("type", VStr "character"); ("id", VStr " 7 apples");
           ("item", VObj 140 [("name", VStr "Seven")])].
Definition unnumbered : value :=
  VObj 41 [("type", VStr "character"); ("id", VStr "apple 7");
           ("item", VObj 141 [("name", VStr "Apple")])].

End Sample.

(** ** Auxiliary notions *)

(** What the callback answers, counting an exception as a refusal. *)
Definition verdict {A} (cb : A -> result bool) (x : A) : bool :=
  match cb x with
  | Ok b => b
  | Throw _ => false
  end.

Definition returns {A B} (cb : A -> result B) (x : A) : Prop :=
  exists b, cb x = Ok b.

(** A stage is a selection when its result is a part of its input, and
    applying it to any part of its result changes nothing. *)

Definition selection (stage : list value -> result (list value)) : Prop :=
  forall l m, stage l = Ok m ->
    m `sublist_of` l /\ forall r, r `sublist_of` m -> stage r = Ok r.

(** The world-info matcher keeps matching an entry when other entries are
    taken out of the list it is given. *)
Definition matcher_stable `{Imports} (term : value) : Prop :=
  forall (d d' : list value) (e : value),
    d' `sublist_of` d -> e ∈ d' ->
    includes (fuzzySearchWorldInfo d term) (Spec.field e "uid") = true ->
    includes (fuzzySearchWorldInfo d' term) (Spec.field e "uid") = true.

(** The favourite flag of the payload counts as true. *)
Definition is_favourite (e : value) : bool :=
  truthy (Spec.field (Spec.payload e) "fav").

(** An entry of the expected shape: it carries a payload, and the name of
    the payload, if there is one, is a string. *)
Definition well_formed (e : value) : bool :=
  Spec.has_payload e && Spec.name_well_typed e.

Definition is_array_field (v : value) (k : string) : bool :=
  match get v k with
  | Ok (VArr _ _) => true
  | _ => false
  end.

(** Criteria of the expected shapes: the search criterion is a string (or
    is unset), the tag criterion holds two arrays. *)
Definition criteria_well_shaped (filterData : gmap string value) : bool :=
  match lookup_key filterData FILTER_TYPES.SEARCH with
  | VStr _ => true
  | v => negb (truthy v)
  end &&
  is_array_field (lookup_key filterData FILTER_TYPES.TAG) "selected" &&
  is_array_field (lookup_key filterData FILTER_TYPES.TAG) "excluded".

(** Reading back one escaped code unit of a JSON string. *)
Definition hex_value (c : ascii) : nat :=
  let n := nat_of_ascii c in
  if (n <? 58)%nat then (n - 48)%nat else (n - 87)%nat.

Definition json_unescape (s : string) : option (ascii * string) :=
  match s with
  | String c r =>
      if Ascii.eqb c backslash then
        match r with
        | String e r' =>
            let n := nat_of_ascii e in
            if (n =? 98)%nat then Some (ascii_of_nat 8, r')
            else if (n =? 116)%nat then Some (ascii_of_nat 9, r')
            else if (n =? 110)%nat then Some (ascii_of_nat 10, r')
            else if (n =? 102)%nat then Some (ascii_of_nat 12, r')
            else if (n =? 114)%nat then Some (ascii_of_nat 13, r')
            else if (n =? 117)%nat then
              match r' with
              | String _ (String _ (String h (String l r''))) =>
                  Some (ascii_of_nat (16 * hex_value h + hex_value l), r'')
              | _ => None
              end
            else Some (e, r')
        | EmptyString => None
        end
      else Some (c, r)
  | EmptyString => None
  end.

Definition is_string (v : value) : bool :=
  match v with
  | VStr _ => true
  | _ => false
  end.

Definition string_of (v : value) : string :=
  match v with
  | VStr s => s
  | _ => EmptyString
  end.

(** Criteria of the documented shapes: a string, a boolean, or an object
    with the properties [excluded] and [selected], in this order, each an
    array of strings. *)
Definition criterion_shaped (v : value) : bool :=
  match v with
  | VStr _ | VBool _ => true
  | VObj _ [(k1, VArr _ excluded); (k2, VArr _ selected)] =>
      String.eqb k1 "excluded" && String.eqb k2 "selected" &&
      forallb is_string excluded && forallb is_string selected
  | _ => false
  end.

(** The serialisation of a tag criterion with the given tags. *)
Definition tag_json (excluded selected : list string) : string :=
  "{" +:+ json_quote "excluded" +:+ ":[" +:+
  (join (List.map json_quote excluded) +:+
   String "]" ("," +:+ json_quote "selected" +:+ ":[" +:+
               (join (List.map json_quote selected) +:+ String "]" "}"))).

(** ** What each stage keeps

    The test each criterion-driven stage applies to one entry, as a function
    of the criteria held by the instance. *)

Definition array_elements (v : value) : list value :=
  match v with
  | VArr _ elems => elems
  | _ => []
  end.

Section Keeps.

Context `{Imports}.

Variable this : FilterHelper.

Definition search_keeps (e : value) : bool :=
  match lookup_key (filterData this) FILTER_TYPES.SEARCH with
  | VStr term =>
      if String.eqb term EmptyString then true
      else
        let searchValue := toLowerCase (trim term) in
        if fuzzy_search
        then Spec.fuzzy_matches (fuzzySearchCharacters searchValue)
                                (fuzzySearchGroups searchValue) e
        else Spec.name_matches searchValue e
  | _ => true
  end.

Definition group_keeps (e : value) : bool :=
  negb (truthy (lookup_key (filterData this) FILTER_TYPES.GROUP)) ||
  Spec.is_kind "group" e.

Definition fav_keeps (e : value) : bool :=
  negb (truthy (lookup_key (filterData this) FILTER_TYPES.FAV)) ||
  is_favourite e.

Definition tags_keep (e : value) : bool :=
  let criteria := lookup_key (filterData this) FILTER_TYPES.TAG in
  Spec.tag_keeps (array_elements (Spec.field criteria "selected"))
                 (array_elements (Spec.field criteria "excluded")) e.

Definition wi_keeps (data : list value) (e : value) : bool :=
  let term := lookup_key (filterData this) FILTER_TYPES.WORLD_INFO_SEARCH in
  negb (truthy term) ||
  includes (fuzzySearchWorldInfo data term) (Spec.field e "uid").

(** The list the pipeline returns on well-formed entries. *)
Definition filtered (data : list value) : list value :=
  let kept := List.filter (fun e => search_keeps e && group_keeps e &&
                                    fav_keeps e && tags_keep e) data in
  let found := List.filter (wi_keeps kept) kept in
  List.filter (fun e => negb (Spec.in_deck (Spec.deck_members found) e)) found.

End Keeps.

(** The payload has a name, and the name is a string. *)
Definition has_name (e : value) : bool :=
  match Spec.payload_name e with
  | Some _ => true
  | None => false
  end.

(** The criteria let the search stage and the tag stage start: the search
    criterion is falsy or a string; the tag criterion and its [selected]
    property can be read, and so can its [excluded] property when the
    length of [selected] is falsy. *)
Definition criteria_usable (filterData : gmap string value) : bool :=
  let search := lookup_key filterData FILTER_TYPES.SEARCH in
  let tag := lookup_key filterData FILTER_TYPES.TAG in
  let selected := Spec.field tag "selected" in
  let excluded := Spec.field tag "excluded" in
  (negb (truthy search) || is_string search) &&
  (negb (nullish tag) && negb (nullish selected) &&
   (truthy (Spec.field selected "length") || negb (nullish excluded))).

(** A history of the store: the calls [setFilterData(k, v, s)] made on an
    instance, in order. *)
Definition setAll (this : FilterHelper) (calls : list (string * value * bool)) : FilterHelper :=
  fold_left (fun h call => setFilterData h (fst (fst call)) (snd (fst call)) (snd call))
            calls this.

Definition keys_of (calls : list (string * value * bool)) : list string :=
  List.map (fun call => fst (fst call)) calls.

(** ** The range of the model

    Strings are modelled by their 8-bit code units, numbers by integers.
    The model and JavaScript agree on ASCII strings (where [toLowerCase] and
    [trim] are the ASCII ones) and on the integers a double holds exactly
    (where [String] and [parseInt] are exact); the predicates below say that
    a value lies in this range. *)

Fixpoint is_ascii (s : string) : bool :=
  match s with
  | String c s' => (nat_of_ascii c <? 128)%nat && is_ascii s'
  | EmptyString => true
  end.

(** An identifier on which [String] and [parseInt] are exact: a number of
    magnitude below 2^53, an ASCII string of at most 15 code units, or a
    value that is neither a number, a string nor an object. *)
Definition safe_identifier (v : value) : bool :=
  match v with
  | VNum z => Z.abs z <? 2 ^ 53
  | VStr s => is_ascii s && (String.length s <=? 15)%nat
  | VUndefined | VNull | VBool _ | VNaN => true
  | VArr _ _ | VObj _ _ => false
  end.

(** The name of the payload, if it is a string, is ASCII. *)
Definition ascii_name (e : value) : bool :=
  match Spec.payload_name e with
  | Some n => is_ascii n
  | None => true
  end.

(** The search criterion, if it is a string, is ASCII. *)
Definition ascii_search (filterData : gmap string value) : bool :=
  match lookup_key filterData FILTER_TYPES.SEARCH with
  | VStr term => is_ascii term
  | _ => true
  end.

(** The names [Object.prototype] defines: read on an object literal they
    give the inherited member, not [undefined]. *)
Definition Object_prototype_names : list string :=
  [ "constructor"; "__proto__"; "hasOwnProperty"; "isPrototypeOf";
    "propertyIsEnumerable"; "toLocaleString"; "toString"; "valueOf";
    "__defineGetter__"; "__defineSetter__"; "__lookupGetter__"; "__lookupSetter__" ].

(** A key that [Object.prototype] does not define. *)
Definition ordinary_key (k : string) : bool :=
  negb (existsb (String.eqb k) Object_prototype_names).

(** * Properties *)

(** ** The result monad and the array methods *)

Lemma bind_Ok_inv {A B} (m : result A) (k : A -> result B) (b : B) :
  bind m k = Ok b -> exists a, m = Ok a /\ k a = Ok b.
Proof. destruct m as [a|e]; simpl; [eauto | discriminate]. Qed.

Lemma filterM_Ok_iff {A} (cb : A -> result bool) (l m : list A) :
  filterM cb l = Ok m <->
  Forall (returns cb) l /\ m = List.filter (verdict cb) l.
Proof.
  revert m. induction l as [|x l IH]; intros m; simpl.
  - split.
    + intros [= <-]. split; [constructor | reflexivity].
    + intros [_ ->]. reflexivity.
  - unfold verdict at 1. split.
    + intros Hm. apply bind_Ok_inv in Hm as (b & Hb & Hm).
      apply bind_Ok_inv in Hm as (r & Hr & [= <-]).
      apply IH in Hr as [Hall ->]. rewrite Hb. split.
      * constructor; [exists b; exact Hb | exact Hall].
      * destruct b; reflexivity.
    + intros [Hall ->]. inversion Hall as [|? ? [b Hb] Hl]; subst.
      rewrite Hb. simpl.
      assert (Hr : filterM cb l = Ok (List.filter (verdict cb) l))
        by (apply IH; split; [exact Hl | reflexivity]).
      rewrite Hr. simpl. destruct b; reflexivity.
Qed.

Lemma filterM_pure {A} (cb : A -> result bool) (p : A -> bool) (l : list A) :
  (forall x, x ∈ l -> cb x = Ok (p x)) ->
  filterM cb l = Ok (List.filter p l).
Proof.
  intros Hcb. apply filterM_Ok_iff. split.
  - apply Forall_forall. intros x Hx. exists (p x). auto.
  - apply List.filter_ext_in. intros x Hx. unfold verdict.
    rewrite Hcb; [reflexivity | by apply list_elem_of_In].
Qed.

Lemma list_filter_sublist {A} (p : A -> bool) (l : list A) :
  List.filter p l `sublist_of` l.
Proof.
  induction l as [|x l IH]; simpl; [constructor|].
  destruct (p x); [by apply sublist_skip | by apply sublist_cons].
Qed.

Lemma list_filter_of_sublist {A} (p : A -> bool) (r l : list A) :
  r `sublist_of` l -> List.filter p r `sublist_of` List.filter p l.
Proof.
  induction 1 as [|x r l _ IH|x r l _ IH]; simpl.
  - constructor.
  - destruct (p x); [by apply sublist_skip | exact IH].
  - destruct (p x); [by apply sublist_cons | exact IH].
Qed.

Lemma list_filter_id {A} (p : A -> bool) (l : list A) :
  (forall x, x ∈ l -> p x = true) -> List.filter p l = l.
Proof.
  induction l as [|x l IH]; intros Hp; simpl; [reflexivity|].
  rewrite Hp by left. f_equal. apply IH. intros y Hy. apply Hp. by right.
Qed.

Lemma elem_of_list_filter {A} (p : A -> bool) (l : list A) (x : A) :
  x ∈ List.filter p l <-> x ∈ l /\ p x = true.
Proof. rewrite !list_elem_of_In. apply List.filter_In. Qed.

Lemma filterM_sublist {A} (cb : A -> result bool) (l m : list A) :
  filterM cb l = Ok m -> m `sublist_of` l.
Proof. intros [_ ->]%filterM_Ok_iff. apply list_filter_sublist. Qed.

(** Filtering again what a filter kept, or any part of it, keeps all of
    it. *)
Lemma filterM_again {A} (cb : A -> result bool) (l m r : list A) :
  filterM cb l = Ok m -> r `sublist_of` m -> filterM cb r = Ok r.
Proof.
  intros [Hall ->]%filterM_Ok_iff Hr.
  rewrite (filterM_pure cb (fun _ => true)).
  - f_equal. by apply list_filter_id.
  - intros x Hx. eapply elem_of_sublist in Hx; [|exact Hr].
    apply elem_of_list_filter in Hx as [Hx Hv].
    unfold verdict in Hv. destruct (cb x) as [[]|]; congruence.
Qed.

(** ** Stages that select *)

Lemma selection_Ok : selection Ok.
Proof. intros l m [= <-]. split; [reflexivity | auto]. Qed.

Lemma selection_filterM (cb : value -> result bool) : selection (filterM cb).
Proof.
  intros l m Hm. split; [by eapply filterM_sublist|].
  intros r Hr. by eapply filterM_again.
Qed.

Lemma selection_Throw (e : exn) : selection (fun _ => Throw e).
Proof. intros l m [=]. Qed.

Lemma selection_reduceM {F} (run : F -> list value -> result (list value)) (fns : list F) :
  (forall fn, fn ∈ fns -> selection (run fn)) ->
  selection (reduceM (fun data fn => run fn data) fns).
Proof.
  induction fns as [|fn fns IH]; intros Hsel; simpl.
  - apply selection_Ok.
  - intros l m Hm. apply bind_Ok_inv in Hm as (l1 & H1 & Hm).
    assert (Hfn : selection (run fn)) by (apply Hsel; left).
    assert (Hrest : selection (reduceM (fun data fn => run fn data) fns))
      by (apply IH; intros fn' Hin; apply Hsel; by right).
    destruct (Hfn _ _ H1) as [Hsub1 Hfix1].
    destruct (Hrest _ _ Hm) as [Hsub Hfix].
    split; [by etrans|].
    intros r Hr. rewrite Hfix1 by (by etrans). simpl. by apply Hfix.
Qed.

(** ** Reading fields *)

Lemma get_entry (v : value) (k : string) :
  Spec.is_entry v = true -> get v k = Ok (Spec.field v k).
Proof. unfold Spec.field. destruct v; simpl; (discriminate || reflexivity). Qed.

Lemma get_nullish (v : value) (k : string) :
  Spec.is_entry v = false -> get v k = Throw TypeError.
Proof. destruct v; simpl; (discriminate || reflexivity). Qed.

Lemma get_returns (v : value) (k : string) (x : value) :
  get v k = Ok x -> Spec.is_entry v = true /\ x = Spec.field v k.
Proof.
  intros Hx. destruct (Spec.is_entry v) eqn:Hv.
  - rewrite get_entry in Hx by exact Hv. by injection Hx as <-.
  - rewrite get_nullish in Hx by exact Hv. discriminate.
Qed.

Lemma strict_eq_kind (name : string) (e : value) :
  strict_eq (Spec.field e "type") (VStr name) = Spec.is_kind name e.
Proof. unfold Spec.is_kind. destruct (Spec.field e "type"); reflexivity. Qed.

Lemma strict_eq_kind_l (name : string) (e : value) :
  strict_eq (VStr name) (Spec.field e "type") = Spec.is_kind name e.
Proof.
  unfold Spec.is_kind. destruct (Spec.field e "type"); try reflexivity.
  simpl. apply String.eqb_sym.
Qed.

(** ** SameValueZero is an equivalence *)

Lemma same_value_zero_eq (a b : value) :
  same_value_zero a b = true ->
  match a, b with
  | VArr r _, VArr r' _ | VObj r _, VObj r' _ => r = r'
  | _, _ => a = b
  end.
Proof.
  destruct a, b; simpl; try discriminate; try reflexivity; intros Heq.
  - apply Bool.eqb_prop in Heq. by subst.
  - apply Z.eqb_eq in Heq. by subst.
  - apply String.eqb_eq in Heq. by subst.
  - by apply Nat.eqb_eq in Heq.
  - by apply Nat.eqb_eq in Heq.
Qed.

Lemma same_value_zero_refl (a : value) : same_value_zero a a = true.
Proof.
  destruct a; simpl; try reflexivity.
  - by destruct b.
  - apply Z.eqb_refl.
  - apply String.eqb_refl.
  - apply Nat.eqb_refl.
  - apply Nat.eqb_refl.
Qed.

Lemma same_value_zero_replace (a b c : value) :
  same_value_zero a b = true -> same_value_zero c a = same_value_zero c b.
Proof.
  intros Hab. apply same_value_zero_eq in Hab.
  destruct a, b; try discriminate; try (injection Hab as ->); try subst;
    reflexivity || (destruct c; reflexivity).
Qed.

Lemma includes_app (l k : list value) (x : value) :
  includes (l ++ k) x = includes l x || includes k x.
Proof. unfold includes. apply existsb_app. Qed.

Lemma includes_elem (l : list value) (x : value) :
  includes l x = true <-> exists y, y ∈ l /\ same_value_zero y x = true.
Proof.
  unfold includes. rewrite existsb_exists.
  split; intros (y & Hy & Heq); exists y; by rewrite ?list_elem_of_In in *.
Qed.

Lemma includes_replace (l : list value) (x y : value) :
  same_value_zero x y = true -> includes l x = includes l y.
Proof.
  intros Hxy. unfold includes.
  induction l as [|z l IH]; simpl; [reflexivity|].
  by rewrite IH, (same_value_zero_replace x y z).
Qed.

(** A [Set] has the members of the array it is built from. *)
Lemma includes_set_values (l : list value) (x : value) :
  includes (set_values l) x = includes l x.
Proof.
  unfold set_values.
  enough (Hgen : forall seen,
    includes (fold_left (fun seen y => if includes seen y then seen
                                       else (seen ++ [y])%list) l seen) x
    = includes seen x || includes l x) by (rewrite Hgen; reflexivity).
  induction l as [|y l IH]; intros seen; simpl.
  - by rewrite orb_false_r.
  - rewrite IH. destruct (includes seen y) eqn:Hy.
    + destruct (same_value_zero y x) eqn:Hyx; simpl; [|reflexivity].
      rewrite <- (includes_replace seen y x Hyx), Hy. reflexivity.
    + rewrite includes_app. simpl. rewrite orb_false_r, orb_assoc. reflexivity.
Qed.

Lemma includes_mono (l k : list value) (x : value) :
  l ⊆ k -> includes l x = true -> includes k x = true.
Proof.
  intros Hlk (y & Hy & Heq)%includes_elem. apply includes_elem.
  exists y. split; [by apply Hlk | exact Heq].
Qed.

(** ** hideCharactersAlreadyInDeck *)

Lemma isDeck_pure (e : value) :
  Spec.is_entry e = true -> isDeck e = Ok (Spec.is_kind "deck" e).
Proof.
  intros He. unfold isDeck. rewrite get_entry by exact He. cbn [bind].
  by rewrite strict_eq_kind_l.
Qed.

Lemma isDeck_returns (e : value) : returns isDeck e -> Spec.is_entry e = true.
Proof.
  intros [b Hb]. unfold isDeck in Hb.
  apply bind_Ok_inv in Hb as (ty & Hty & _). by apply get_returns in Hty as [? _].
Qed.

Lemma concat_members (a : list value) (b : value) :
  concat a (Spec.field (Spec.payload b) "characters") = a ++ Spec.members_of b.
Proof.
  unfold concat, Spec.members_of.
  by destruct (Spec.field (Spec.payload b) "characters").
Qed.

Lemma addCharacters_pure (a : list value) (b : value) :
  Spec.has_payload b = true -> addCharacters a b = Ok (a ++ Spec.members_of b).
Proof.
  unfold Spec.has_payload. intros [Hb Hitem]%andb_prop.
  unfold addCharacters. rewrite get_entry by exact Hb. cbn [bind].
  fold (Spec.payload b). rewrite get_entry by exact Hitem. cbn [bind].
  by rewrite concat_members.
Qed.

Lemma addCharacters_returns (a r : list value) (b : value) :
  addCharacters a b = Ok r -> Spec.has_payload b = true.
Proof.
  unfold addCharacters. intros Hr.
  apply bind_Ok_inv in Hr as (item & Hitem & Hr).
  apply bind_Ok_inv in Hr as (cs & Hcs & _).
  apply get_returns in Hitem as [Hb ->]. apply get_returns in Hcs as [Hi _].
  unfold Spec.has_payload, Spec.payload. rewrite Hb. exact Hi.
Qed.

Lemma reduceM_addCharacters (decks acc : list value) :
  forallb Spec.has_payload decks = true ->
  reduceM addCharacters decks acc = Ok (acc ++ flat_map Spec.members_of decks).
Proof.
  revert acc. induction decks as [|d decks IH]; intros acc; simpl.
  - intros _. by rewrite app_nil_r.
  - intros [Hd Hrest]%andb_prop. rewrite addCharacters_pure by exact Hd. cbn [bind].
    rewrite IH by exact Hrest. by rewrite <- app_assoc.
Qed.

Lemma reduceM_addCharacters_returns (decks acc r : list value) :
  reduceM addCharacters decks acc = Ok r -> forallb Spec.has_payload decks = true.
Proof.
  revert acc. induction decks as [|d decks IH]; intros acc; simpl; [reflexivity|].
  intros Hr. apply bind_Ok_inv in Hr as (acc' & Hd & Hr).
  apply addCharacters_returns in Hd. apply IH in Hr. by rewrite Hd, Hr.
Qed.

Lemma notIn_pure (characterIds : list value) (e : value) :
  Spec.is_entry e = true ->
  notIn characterIds e = Ok (negb (Spec.in_deck characterIds e)).
Proof.
  intros He. unfold notIn. rewrite get_entry by exact He. cbn [bind].
  unfold Spec.in_deck, Spec.identifier.
  by destruct (includes characterIds (VStr (String_ (Spec.field e "id")))).
Qed.

Lemma deck_well_formed_decks (data : list value) :
  forallb Spec.deck_well_formed data = true ->
  forallb Spec.is_entry data = true /\
  forallb Spec.has_payload (List.filter (Spec.is_kind "deck") data) = true.
Proof.
  induction data as [|e data IH]; cbn [forallb List.filter]; [done|].
  intros [He Hdata]%andb_prop. destruct (IH Hdata) as [IH1 IH2].
  unfold Spec.deck_well_formed in He. apply andb_prop in He as [He Hd].
  rewrite He, IH1. split; [reflexivity|].
  destruct (Spec.is_kind "deck" e); cbn [forallb]; [|exact IH2].
  rewrite IH2. unfold Spec.has_payload. rewrite He. cbn [negb orb] in Hd. by rewrite Hd.
Qed.

Lemma decks_deck_well_formed (data : list value) :
  forallb Spec.is_entry data = true ->
  forallb Spec.has_payload (List.filter (Spec.is_kind "deck") data) = true ->
  forallb Spec.deck_well_formed data = true.
Proof.
  induction data as [|e data IH]; cbn [forallb List.filter]; [done|].
  intros [He Hdata]%andb_prop. unfold Spec.deck_well_formed at 1. rewrite He.
  destruct (Spec.is_kind "deck" e); cbn [forallb negb orb andb].
  - intros [Hp Hrest]%andb_prop. unfold Spec.has_payload in Hp. rewrite He in Hp.
    cbn [andb] in Hp. rewrite Hp. by apply IH.
  - intros Hrest. by apply IH.
Qed.

Lemma filterM_entries (cb : value -> result bool) (p : value -> bool) (data : list value) :
  (forall e, Spec.is_entry e = true -> cb e = Ok (p e)) ->
  forallb Spec.is_entry data = true ->
  filterM cb data = Ok (List.filter p data).
Proof.
  intros Hcb Hdata. apply filterM_pure. intros e He. apply Hcb.
  rewrite forallb_forall in Hdata. apply Hdata. by apply list_elem_of_In.
Qed.

(** On well-formed data the stage drops the entries whose stringified
    identifier is a member of some deck of the list. *)
Lemma hideCharactersAlreadyInDeck_pure (data : list value) :
  forallb Spec.deck_well_formed data = true ->
  hideCharactersAlreadyInDeck data =
    Ok (List.filter (fun e => negb (Spec.in_deck (Spec.deck_members data) e)) data).
Proof.
  intros [Hentries Hdecks]%deck_well_formed_decks. unfold hideCharactersAlreadyInDeck.
  rewrite (filterM_entries isDeck (Spec.is_kind "deck")) by (exact isDeck_pure || exact Hentries).
  cbn [bind]. rewrite reduceM_addCharacters by exact Hdecks. cbn [bind].
  rewrite (filterM_entries _ (fun e => negb (Spec.in_deck (Spec.deck_members data) e)));
    [reflexivity | | exact Hentries].
  intros e He. rewrite notIn_pure by exact He.
  unfold Spec.in_deck. by rewrite includes_set_values.
Qed.

(** The stage raises an exception on any other data. *)
Lemma hideCharactersAlreadyInDeck_returns (data m : list value) :
  hideCharactersAlreadyInDeck data = Ok m ->
  forallb Spec.deck_well_formed data = true.
Proof.
  unfold hideCharactersAlreadyInDeck. intros Hm.
  apply bind_Ok_inv in Hm as (decks & Hdecks & Hm).
  apply bind_Ok_inv in Hm as (members & Hmembers & _).
  apply filterM_Ok_iff in Hdecks as [Hall ->].
  assert (Hentries : forallb Spec.is_entry data = true).
  { apply forallb_forall. intros e He. rewrite Forall_forall in Hall.
    apply isDeck_returns, Hall. by apply list_elem_of_In. }
  apply decks_deck_well_formed; [exact Hentries|].
  apply reduceM_addCharacters_returns in Hmembers.
  erewrite List.filter_ext_in; [exact Hmembers|].
  intros e He. unfold verdict. rewrite isDeck_pure; [reflexivity|].
  rewrite forallb_forall in Hentries. by apply Hentries.
Qed.

Lemma forallb_sublist {A} (p : A -> bool) (r l : list A) :
  r `sublist_of` l -> forallb p l = true -> forallb p r = true.
Proof.
  intros Hr Hl. apply forallb_forall. intros x Hx%list_elem_of_In.
  rewrite forallb_forall in Hl. apply Hl, list_elem_of_In.
  by eapply elem_of_sublist.
Qed.

Lemma deck_members_sublist (r l : list value) :
  r `sublist_of` l -> Spec.deck_members r ⊆ Spec.deck_members l.
Proof.
  intros Hr x. unfold Spec.deck_members.
  rewrite !list_elem_of_In, !in_flat_map.
  intros (d & Hd & Hx). exists d. split; [|exact Hx].
  apply list_elem_of_In. apply list_elem_of_In in Hd.
  eapply elem_of_sublist; [exact Hd|]. by apply list_filter_of_sublist.
Qed.

Lemma selection_hideCharactersAlreadyInDeck : selection hideCharactersAlreadyInDeck.
Proof.
  intros l m Hm. pose proof (hideCharactersAlreadyInDeck_returns _ _ Hm) as Hl.
  rewrite hideCharactersAlreadyInDeck_pure in Hm by exact Hl. injection Hm as <-.
  split; [apply list_filter_sublist|].
  intros r Hr.
  assert (Hrl : r `sublist_of` l) by (etrans; [exact Hr | apply list_filter_sublist]).
  rewrite hideCharactersAlreadyInDeck_pure by (by eapply forallb_sublist).
  f_equal. apply list_filter_id. intros e He.
  eapply elem_of_sublist in He; [|exact Hr].
  apply elem_of_list_filter in He as [_ He].
  destruct (Spec.in_deck (Spec.deck_members r) e) eqn:Hin; [|reflexivity].
  unfold Spec.in_deck in *.
  rewrite (includes_mono _ _ _ (deck_members_sublist r l Hrl) Hin) in He. discriminate.
Qed.

(** ** The stages that test one entry at a time *)

Lemma filterM_all_true {A} (cb : A -> result bool) (l : list A) :
  (forall x, x ∈ l -> cb x = Ok true) -> filterM cb l = Ok l.
Proof.
  intros Hcb. rewrite (filterM_pure cb (fun _ => true)) by exact Hcb.
  f_equal. by apply list_filter_id.
Qed.

Lemma filterM_kept {A} (cb : A -> result bool) (l m : list A) (x : A) :
  filterM cb l = Ok m -> x ∈ m -> x ∈ l /\ cb x = Ok true.
Proof.
  intros [_ ->]%filterM_Ok_iff [Hx Hv]%elem_of_list_filter. split; [exact Hx|].
  unfold verdict in Hv. destruct (cb x) as [[]|]; congruence.
Qed.

Lemma forallb_of_map {A B} (f : A -> B) (p : B -> bool) (l : list A) :
  forallb p (List.map f l) = forallb (fun x => p (f x)) l.
Proof. induction l as [|x l IH]; simpl; [reflexivity | by rewrite IH]. Qed.

Lemma existsb_of_map {A B} (f : A -> B) (p : B -> bool) (l : list A) :
  existsb p (List.map f l) = existsb (fun x => p (f x)) l.
Proof. induction l as [|x l IH]; simpl; [reflexivity | by rewrite IH]. Qed.

Lemma existsb_pointwise {A} (p q : A -> bool) (l : list A) :
  (forall x, p x = q x) -> existsb p l = existsb q l.
Proof. intros Hpq. induction l as [|x l IH]; simpl; [reflexivity | by rewrite Hpq, IH]. Qed.

Section Stages.

Context `{Imports}.

Variable this : FilterHelper.

Lemma isGroupEntity_pure (e : value) :
  Spec.is_entry e = true -> isGroupEntity e = Ok (Spec.is_kind "group" e).
Proof.
  intros He. unfold isGroupEntity. rewrite get_entry by exact He. cbn [bind].
  by rewrite strict_eq_kind.
Qed.

Lemma falsy_not_true (v : value) : truthy v = false -> loose_eq_true v = false.
Proof. destruct v; simpl; try reflexivity; try discriminate. by destruct s. Qed.

Lemma isFav_pure (e : value) :
  Spec.has_payload e = true -> isFav e = Ok (is_favourite e).
Proof.
  unfold Spec.has_payload. intros [He Hitem]%andb_prop. unfold isFav, is_favourite.
  rewrite get_entry by exact He. cbn [bind]. fold (Spec.payload e).
  rewrite get_entry by exact Hitem. cbn [bind].
  destruct (truthy (Spec.field (Spec.payload e) "fav")) eqn:Hfav; [reflexivity|].
  by rewrite falsy_not_true.
Qed.

Lemma nameIncludes_pure (searchValue : string) (e : value) :
  Spec.is_entry e = true -> Spec.name_well_typed e = true ->
  nameIncludes searchValue e = Ok (Spec.name_matches searchValue e).
Proof.
  intros He Hname. unfold nameIncludes, Spec.name_matches, Spec.payload_name.
  unfold Spec.name_well_typed in Hname.
  rewrite get_entry by exact He. cbn [bind]. fold (Spec.payload e).
  destruct (nullish (Spec.payload e)) eqn:Hitem.
  - destruct (Spec.payload e); try discriminate; reflexivity.
  - rewrite get_entry by (unfold Spec.is_entry; by rewrite Hitem). cbn [bind].
    destruct (Spec.field (Spec.payload e) "name"); try discriminate; try reflexivity.
    cbn. by rewrite orb_false_r.
Qed.

Lemma kind_character_not_group (e : value) :
  Spec.is_kind "character" e = true -> Spec.is_kind "group" e = false.
Proof.
  unfold Spec.is_kind. destruct (Spec.field e "type"); try discriminate.
  intros ->%String.eqb_eq. reflexivity.
Qed.

Lemma getIsValidSearch_exact (searchValue : string) (cs gs : list value) (e : value) :
  fuzzy_search = false ->
  Spec.is_entry e = true -> Spec.name_well_typed e = true ->
  getIsValidSearch searchValue cs gs e = Ok (Spec.name_matches searchValue e).
Proof.
  intros Hfuzzy He Hname. unfold getIsValidSearch.
  rewrite get_entry by exact He. cbn [bind]. rewrite Hfuzzy.
  by apply nameIncludes_pure.
Qed.

Lemma getIsValidSearch_fuzzy (searchValue : string) (cs gs : list value) (e : value) :
  fuzzy_search = true ->
  Spec.is_entry e = true ->
  getIsValidSearch searchValue cs gs e = Ok (Spec.fuzzy_matches cs gs e).
Proof.
  intros Hfuzzy He. unfold getIsValidSearch, Spec.fuzzy_matches, Spec.identifier.
  rewrite get_entry by exact He. cbn [bind]. rewrite Hfuzzy, !strict_eq_kind.
  destruct (Spec.is_kind "character" e) eqn:Hc.
  - rewrite get_entry by exact He. cbn [bind andb].
    rewrite (kind_character_not_group e Hc). cbn [andb]. by rewrite orb_false_r.
  - destruct (Spec.is_kind "group" e); [|reflexivity].
    rewrite get_entry by exact He. reflexivity.
Qed.

Lemma isElementTagged_pure (e tag : value) :
  Spec.character_well_formed e = true ->
  isElementTagged e tag = Ok (Spec.has_tag e tag).
Proof.
  unfold Spec.character_well_formed. intros [He Hitem]%andb_prop.
  unfold isElementTagged, Spec.has_tag, Spec.tag_key, Spec.identifier.
  rewrite get_entry by exact He. cbn [bind]. rewrite strict_eq_kind.
  destruct (Spec.is_kind "character" e).
  - cbn [negb orb] in Hitem. rewrite get_entry by exact He. cbn [bind].
    fold (Spec.payload e). rewrite get_entry by exact Hitem. cbn [bind].
    unfold lookup_key.
    destruct (tag_map !! String_ (Spec.field (Spec.payload e) "avatar")) as [[]|];
      reflexivity.
  - rewrite get_entry by exact He. cbn [bind]. unfold lookup_key. cbn [String_].
    destruct (tag_map !! String_ (Spec.field e "id")) as [[]|]; reflexivity.
Qed.

Lemma mapM_pure {A B} (cb : A -> result B) (f : A -> B) (l : list A) :
  (forall x, cb x = Ok (f x)) -> mapM cb l = Ok (List.map f l).
Proof.
  intros Hcb. induction l as [|x l IH]; simpl; [reflexivity|].
  by rewrite Hcb, IH.
Qed.

Lemma all_flags_true (flags : list bool) :
  (List.length flags =? List.length (List.filter (fun x : bool => x) flags))%nat
  = forallb (fun x : bool => x) flags.
Proof.
  induction flags as [|b flags IH]; [reflexivity|].
  destruct b; cbn [List.filter forallb List.length andb].
  - exact IH.
  - pose proof (List.filter_length_le (fun x : bool => x) flags).
    apply Nat.eqb_neq. lia.
Qed.

Lemma getIsTagged_pure (r1 r2 : loc) (selected excluded : list value) (e : value) :
  Spec.character_well_formed e = true ->
  getIsTagged (VArr r1 selected) (VArr r2 excluded) e =
    Ok (Spec.tag_keeps selected excluded e).
Proof.
  intros He. unfold getIsTagged, call_map, Spec.tag_keeps.
  rewrite !(mapM_pure _ (Spec.has_tag e)) by (intros; by apply isElementTagged_pure).
  cbn [bind]. unfold TAG_LOGIC_AND. rewrite all_flags_true.
  rewrite forallb_of_map, existsb_of_map.
  rewrite (existsb_pointwise (fun x => Bool.eqb true (Spec.has_tag e x)) (Spec.has_tag e))
    by (intros x; by destruct (Spec.has_tag e x)).
  destruct (existsb (Spec.has_tag e) excluded); [reflexivity|].
  cbn [get bind negb andb]. rewrite String.eqb_refl.
  destruct selected as [|t selected]; [reflexivity|].
  cbn [List.length gt_zero].
  replace (0 <? Z.of_nat (S (List.length selected))) with true
    by (symmetry; apply Z.ltb_lt; lia).
  cbn [andb orb]. by destruct (forallb _ _).
Qed.

(** Each of the first four stages is a selection. *)

Lemma selection_searchFilter : selection (searchFilter this).
Proof.
  intros l m. unfold searchFilter.
  destruct (negb _); [apply selection_Ok|].
  destruct (call_trim _) as [t|e]; cbn [bind];
    [apply selection_filterM | apply (selection_Throw e)].
Qed.

Lemma selection_groupFilter : selection (groupFilter this).
Proof.
  intros l m. unfold groupFilter.
  destruct (negb _); [apply selection_Ok | apply selection_filterM].
Qed.

Lemma selection_favFilter : selection (favFilter this).
Proof.
  intros l m. unfold favFilter.
  destruct (negb _); [apply selection_Ok | apply selection_filterM].
Qed.

Lemma selection_tagFilter : selection (tagFilter this).
Proof.
  intros l m. unfold tagFilter.
  destruct (get _ "selected") as [selected|e]; cbn [bind]; [|apply (selection_Throw e)].
  destruct (get _ "excluded") as [excluded|e]; cbn [bind]; [|apply (selection_Throw e)].
  destruct (get selected "length") as [n|e]; cbn [bind]; [|apply (selection_Throw e)].
  destruct (negb (truthy n)).
  - destruct (get excluded "length") as [n'|e]; cbn [bind]; [|apply (selection_Throw e)].
    destruct (negb (truthy n')); [apply selection_Ok | apply selection_filterM].
  - cbn [bind]. apply selection_filterM.
Qed.

(** The world-info stage is one when the matcher is stable. *)
Lemma selection_wiSearchFilter :
  (let term := lookup_key (filterData this) FILTER_TYPES.WORLD_INFO_SEARCH in
   truthy term = true -> matcher_stable term) ->
  selection (wiSearchFilter this).
Proof.
  cbv zeta. intros Hstable l m. unfold wiSearchFilter.
  destruct (truthy _) eqn:Hterm; cbn [negb]; [|apply selection_Ok].
  specialize (Hstable eq_refl). intros Hm.
  pose proof (filterM_sublist _ _ _ Hm) as Hml. split; [exact Hml|].
  intros r Hr. apply filterM_all_true. intros e He.
  destruct (filterM_kept _ _ _ e Hm) as [Hel Hkept]; [by eapply elem_of_sublist|].
  unfold isFound in *. apply bind_Ok_inv in Hkept as (uid & Huid & [= Hinc]).
  rewrite Huid. cbn [bind]. f_equal.
  apply get_returns in Huid as [_ ->].
  eapply Hstable; [|exact He|exact Hinc]. by etrans.
Qed.

Lemma selection_call (fn : method) :
  (let term := lookup_key (filterData this) FILTER_TYPES.WORLD_INFO_SEARCH in
   truthy term = true -> matcher_stable term) ->
  selection (call this fn).
Proof.
  intros Hstable. destruct fn; cbn [call].
  - apply selection_searchFilter.
  - apply selection_groupFilter.
  - apply selection_favFilter.
  - apply selection_tagFilter.
  - by apply selection_wiSearchFilter.
  - apply selection_hideCharactersAlreadyInDeck.
Qed.

End Stages.

(** ** The criteria store *)

(** C10.  [setFilterData] stores exactly the given value under the given
    filter type, whether or not the value changed and whether or not the
    callback is suppressed; the values of the other filter types and the
    filter functions stay as they were. *)
Theorem C10_setFilterData_frame (this : FilterHelper) (filterType : string)
    (data : value) (suppress : bool) :
  let this' := setFilterData this filterType data suppress in
  filterData this' !! filterType = Some data /\
  (forall other, other <> filterType -> filterData this' !! other = filterData this !! other) /\
  filterFunctions this' = filterFunctions this.
Proof.
  cbv zeta. unfold setFilterData.
  destruct (_ && _); cbn [filterData filterFunctions];
    (split; [apply lookup_insert_eq | split; [|reflexivity]]);
    intros other Hother; by apply lookup_insert_ne.
Qed.


(** ** Deck de-duplication *)

Lemma in_deck_string_member (members : list value) (e : value) :
  Spec.in_deck members e = true <-> VStr (String_ (Spec.identifier e)) ∈ members.
Proof.
  unfold Spec.in_deck. rewrite includes_elem. split.
  - intros (y & Hy & Heq). apply same_value_zero_eq in Heq.
    destruct y; try discriminate. by injection Heq as ->.
  - intros Hin. eexists. split; [exact Hin | apply same_value_zero_refl].
Qed.

(** C9 (as the code has it).  On a list of entries whose decks carry a
    payload, the stage collects the members of all decks of the list as they
    are stored, and keeps exactly the entries whose stringified identifier is
    not strictly equal to one of them.  With a deck of member ["1"] and the
    characters 1 and 2, character 1 goes, character 2 and the deck stay. *)
Theorem C9_hideCharactersAlreadyInDeck (data : list value) :
  forallb Spec.deck_well_formed data = true ->
  hideCharactersAlreadyInDeck data =
    Ok (List.filter (fun e => negb (Spec.in_deck (Spec.deck_members data) e)) data) /\
  (forall e, Spec.in_deck (Spec.deck_members data) e = true <->
             exists d, d ∈ data /\ Spec.is_kind "deck" d = true /\
                       VStr (String_ (Spec.identifier e)) ∈ Spec.members_of d) /\
  hideCharactersAlreadyInDeck [Sample.deck; Sample.alice; Sample.bob] =
    Ok [Sample.deck; Sample.bob].
Proof.
  intros Hdata. split; [by apply hideCharactersAlreadyInDeck_pure|].
  split; [|reflexivity].
  intros e. rewrite in_deck_string_member. unfold Spec.deck_members.
  rewrite list_elem_of_In, in_flat_map. split.
  - intros (d & [Hd Hk]%List.filter_In & Hin). exists d.
    by rewrite !list_elem_of_In.
  - intros (d & Hd & Hk & Hin). exists d. rewrite List.filter_In.
    by rewrite !list_elem_of_In in *.
Qed.

Lemma C9_witness :
  hideCharactersAlreadyInDeck [Sample.deck_numeric; Sample.deck; Sample.alice; Sample.bob] =
    Ok [Sample.deck_numeric; Sample.deck; Sample.bob].
Proof.
  destruct (C9_hideCharactersAlreadyInDeck
              [Sample.deck_numeric; Sample.deck; Sample.alice; Sample.bob])
    as [Heq _]; [reflexivity|].
  rewrite Heq. reflexivity.
Defined.

(** C9: the members are not stringified.  A deck that lists its member as
    the number 1 does not hide the character whose identifier is 1, although
    both stringify to "1". *)
Lemma C9_members_are_not_stringified :
  Spec.in_deck_stringified (Spec.deck_members [Sample.deck_numeric; Sample.alice])
    Sample.alice = true /\
  hideCharactersAlreadyInDeck [Sample.deck_numeric; Sample.alice] =
    Ok [Sample.deck_numeric; Sample.alice] /\
  hideCharactersAlreadyInDeck [Sample.deck_numeric; Sample.alice] <>
    Ok (List.filter
          (fun e => negb (Spec.in_deck_stringified
                            (Spec.deck_members [Sample.deck_numeric; Sample.alice]) e))
          [Sample.deck_numeric; Sample.alice]).
Proof. split; [reflexivity | split; [reflexivity | discriminate]]. Qed.

(** ** The pipeline at the default criteria *)

Section Defaults.

Context `{Imports}.

Lemma applyFilters_default (this : FilterHelper) (data : list value) :
  filterFunctions this = init_filterFunctions ->
  Spec.default_criteria (filterData this) ->
  applyFilters this data = hideCharactersAlreadyInDeck data.
Proof.
  intros Hfns (Hsearch & Hgroup & Hfav & (tag & r1 & r2 & Htag & Hsel & Hexc) & Hwi).
  unfold applyFilters. rewrite Hfns.
  cbn [List.map snd init_filterFunctions reduceM call].
  unfold searchFilter, groupFilter, favFilter, tagFilter, wiSearchFilter, lookup_key.
  rewrite Hsearch, Hgroup, Hfav, Htag, Hwi.
  cbn [from_option id truthy negb String.eqb bind].
  rewrite Hsel, Hexc. cbn. change (Z.of_nat 0) with 0. cbn.
  by destruct (hideCharactersAlreadyInDeck data).
Qed.

(** C1 (as the code has it).  At the default criteria the five stages driven
    by a criterion return their input, and [applyFilters] is the deck stage
    alone.  The result is the input list, element for element, when the
    decks of the list carry a payload and no entry has its stringified
    identifier among their members. *)
Theorem C1_applyFilters_default (this : FilterHelper) (data : list value) :
  filterFunctions this = init_filterFunctions ->
  Spec.default_criteria (filterData this) ->
  applyFilters this data = hideCharactersAlreadyInDeck data /\
  (forallb Spec.deck_well_formed data = true ->
   forallb (fun e => negb (Spec.in_deck (Spec.deck_members data) e)) data = true ->
   applyFilters this data = Ok data).
Proof.
  intros Hfns Hdefault. split; [by apply applyFilters_default|].
  intros Hwf Hnone. rewrite applyFilters_default by assumption.
  rewrite hideCharactersAlreadyInDeck_pure by exact Hwf. f_equal.
  apply list_filter_id. intros e He. rewrite forallb_forall in Hnone.
  apply Hnone. by apply list_elem_of_In.
Qed.

End Defaults.

Lemma default_criteria_new : Spec.default_criteria (filterData new_FilterHelper).
Proof.
  repeat split; try reflexivity.
  exists (VObj 0 [("excluded", VArr 1 []); ("selected", VArr 2 [])]), 2%nat, 1%nat.
  repeat split; reflexivity.
Qed.

Lemma C1_witness :
  @applyFilters Sample.plain new_FilterHelper [Sample.alice; Sample.bob; Sample.group_g1] =
    Ok [Sample.alice; Sample.bob; Sample.group_g1].
Proof.
  destruct (@C1_applyFilters_default Sample.plain new_FilterHelper
              [Sample.alice; Sample.bob; Sample.group_g1] eq_refl default_criteria_new)
    as [_ Hid].
  apply Hid; reflexivity.
Defined.

(** C1: with every criterion at its default the deck stage still runs, and
    a character that is a member of a deck of the list is dropped. *)
Lemma C1_defaults_drop_deck_members :
  Spec.default_criteria (filterData new_FilterHelper) /\
  @applyFilters Sample.plain new_FilterHelper [Sample.deck; Sample.alice; Sample.bob] =
    Ok [Sample.deck; Sample.bob] /\
  @applyFilters Sample.plain new_FilterHelper [Sample.deck; Sample.alice; Sample.bob] <>
    Ok [Sample.deck; Sample.alice; Sample.bob].
Proof.
  split; [exact default_criteria_new|].
  split; [vm_compute; reflexivity | vm_compute; discriminate].
Qed.

(** ** The tag stage *)

Section Tag.

Context `{Imports}.

Lemma truthy_length (l : list value) :
  truthy (VNum (Z.of_nat (List.length l))) = match l with [] => false | _ => true end.
Proof. destruct l; [reflexivity|]. cbn [truthy List.length]. apply negb_true_iff, Z.eqb_neq. lia. Qed.

Lemma tagFilter_pure (this : FilterHelper) (criteria : value) (r1 r2 : loc)
    (selected excluded : list value) (l : list value) :
  filterData this !! FILTER_TYPES.TAG = Some criteria ->
  get criteria "selected" = Ok (VArr r1 selected) ->
  get criteria "excluded" = Ok (VArr r2 excluded) ->
  (selected <> [] \/ excluded <> [] -> forallb Spec.character_well_formed l = true) ->
  tagFilter this l = Ok (List.filter (Spec.tag_keeps selected excluded) l).
Proof.
  intros Hcriteria Hsel Hexc Hl.
  unfold tagFilter, lookup_key. rewrite Hcriteria.
  cbn [from_option id]. rewrite Hsel, Hexc. cbn [bind get].
  rewrite String.eqb_refl, !truthy_length.
  destruct selected as [|s selected]; [destruct excluded as [|x excluded]|];
    cbn [negb bind].
  - f_equal. symmetry. by apply list_filter_id.
  - assert (Hne : x :: excluded <> []) by discriminate.
    specialize (Hl (or_intror Hne)). rewrite forallb_forall in Hl.
    apply filterM_pure. intros e He. apply getIsTagged_pure.
    by apply Hl, list_elem_of_In.
  - assert (Hne : s :: selected <> []) by discriminate.
    specialize (Hl (or_introl Hne)). rewrite forallb_forall in Hl.
    apply filterM_pure. intros e He. apply getIsTagged_pure.
    by apply Hl, list_elem_of_In.
Qed.

Lemma existsb_false_iff {A} (p : A -> bool) (l : list A) :
  existsb p l = false <-> forall x, x ∈ l -> p x = false.
Proof.
  induction l as [|y l IH]; cbn [existsb].
  - split; [intros _ x Hx; by apply elem_of_nil in Hx | reflexivity].
  - rewrite orb_false_iff, IH. split.
    + intros [Hy Hl] x [->|Hx]%elem_of_cons; auto.
    + intros Hall. split; [apply Hall; left | intros x Hx; apply Hall; by right].
Qed.

Lemma tag_keeps_iff (selected excluded : list value) (e : value) :
  Spec.tag_keeps selected excluded e = true <->
  (forall tag, tag ∈ excluded -> Spec.has_tag e tag = false) /\
  (selected = [] \/ forall tag, tag ∈ selected -> Spec.has_tag e tag = true).
Proof.
  unfold Spec.tag_keeps.
  rewrite andb_true_iff, negb_true_iff, existsb_false_iff, orb_true_iff, forallb_forall.
  split; intros [Hexc Hsel]; (split; [exact Hexc|]).
  - destruct Hsel as [Hnil|Hall].
    + left. by destruct selected.
    + right. intros tag Htag. by apply Hall, list_elem_of_In.
  - destruct Hsel as [->|Hall]; [by left|].
    right. intros tag Htag. by apply Hall, list_elem_of_In.
Qed.

(** C5.  With the TAG criterion holding the arrays [selected] and
    [excluded], the stage keeps an entry exactly when it matches no excluded
    tag and, if anything is selected, matches every selected tag; an entry
    that matches an excluded tag is dropped whatever it matches among the
    selected ones; with both arrays empty the list is returned as it is. *)
Theorem C5_tagFilter (this : FilterHelper) (criteria : value) (r1 r2 : loc)
    (selected excluded : list value) (data : list value) :
  filterData this !! FILTER_TYPES.TAG = Some criteria ->
  get criteria "selected" = Ok (VArr r1 selected) ->
  get criteria "excluded" = Ok (VArr r2 excluded) ->
  forallb Spec.character_well_formed data = true ->
  tagFilter this data = Ok (List.filter (Spec.tag_keeps selected excluded) data) /\
  (forall e, e ∈ List.filter (Spec.tag_keeps selected excluded) data <->
             e ∈ data /\
             (forall tag, tag ∈ excluded -> Spec.has_tag e tag = false) /\
             (selected = [] \/ forall tag, tag ∈ selected -> Spec.has_tag e tag = true)) /\
  (forall e tag, e ∈ data -> tag ∈ excluded -> Spec.has_tag e tag = true ->
                 e ∉ List.filter (Spec.tag_keeps selected excluded) data) /\
  (selected = [] -> excluded = [] ->
   forall any : list value, tagFilter this any = Ok any).
Proof.
  intros Hcriteria Hsel Hexc Hdata.
  pose proof (fun l => tagFilter_pure this criteria r1 r2 selected excluded l
                          Hcriteria Hsel Hexc) as Hrun.
  split; [apply Hrun; auto|]. split; [|split].
  - intros e. rewrite elem_of_list_filter, tag_keeps_iff. reflexivity.
  - intros e tag _ Htag Hhas [_ Hkeeps]%elem_of_list_filter.
    unfold Spec.tag_keeps in Hkeeps. apply andb_prop in Hkeeps as [Hnone _].
    apply negb_true_iff in Hnone.
    assert (Hsome : existsb (Spec.has_tag e) excluded = true)
      by (apply existsb_exists; exists tag; by rewrite <- list_elem_of_In).
    congruence.
  - intros -> -> any. rewrite Hrun by (intros [[]|[]]; reflexivity).
    f_equal. by apply list_filter_id.
Qed.

End Tag.

Lemma C5_witness :
  @tagFilter Sample.tagged
     (setFilterData new_FilterHelper FILTER_TYPES.TAG
        (Sample.tag_criteria [VStr "A"] [VStr "nsfw"]) false)
     [Sample.alice; Sample.bob; Sample.group_g1] = Ok [Sample.bob].
Proof.
  destruct (@C5_tagFilter Sample.tagged
              (setFilterData new_FilterHelper FILTER_TYPES.TAG
                 (Sample.tag_criteria [VStr "A"] [VStr "nsfw"]) false)
              (Sample.tag_criteria [VStr "A"] [VStr "nsfw"]) 62%nat 61%nat
              [VStr "A"] [VStr "nsfw"]
              [Sample.alice; Sample.bob; Sample.group_g1])
    as [Heq _]; [reflexivity..|].
  exact Heq.
Defined.

(** ** parseInt on decimal numerals *)

Lemma digit_pretty_N_char (y : N) :
  (y < 10)%N -> digit 10 (pretty_N_char y) = Some (Z.of_N y).
Proof.
  intros Hy.
  assert (Hcases : (y = 0 \/ y = 1 \/ y = 2 \/ y = 3 \/ y = 4 \/ y = 5 \/ y = 6 \/
                    y = 7 \/ y = 8 \/ y = 9)%N) by lia.
  repeat (destruct Hcases as [->|Hcases]; [reflexivity|]). by subst.
Qed.

Lemma digits_pretty_N_go (x : N) (s : string) (acc : option Z) :
  default 0 acc = 0 -> (0 < x)%N ->
  digits 10 acc (pretty_N_go x s) = digits 10 (Some (Z.of_N x)) s.
Proof.
  intros Hacc. revert s. induction (N.lt_wf_0 x) as [x _ IH]. intros s Hx.
  rewrite pretty_N_go_step by exact Hx.
  assert (Hten : (10 <> 0)%N) by discriminate.
  assert (Hmod : (x `mod` 10 < 10)%N) by (by apply N.mod_lt).
  pose proof (N.div_mod x 10 Hten) as Hdm.
  apply (f_equal Z.of_N) in Hdm. rewrite N2Z.inj_add, N2Z.inj_mul in Hdm.
  change (Z.of_N 10) with 10 in Hdm.
  destruct (decide (x `div` 10 = 0)%N) as [Hdiv|Hdiv].
  - rewrite Hdiv in *. rewrite pretty_N_go_0. cbn [digits].
    rewrite digit_pretty_N_char by exact Hmod. rewrite Hacc. f_equal. f_equal.
    change (Z.of_N 0) with 0 in Hdm. lia.
  - assert (Hlt : (x `div` 10 < x)%N) by (apply N.div_lt; lia).
    assert (Hpos : (0 < x `div` 10)%N) by lia.
    rewrite (IH _ Hlt _ Hpos). cbn [digits].
    rewrite digit_pretty_N_char by exact Hmod. cbn [from_option id]. f_equal. f_equal.
    lia.
Qed.

(** The numeral of a positive number starts with a digit from 1 to 9. *)
Lemma pretty_N_go_head (x : N) (s : string) :
  (0 < x)%N ->
  exists y t, pretty_N_go x s = String (pretty_N_char y) t /\ (0 < y < 10)%N.
Proof.
  revert s. induction (N.lt_wf_0 x) as [x _ IH]. intros s Hx.
  rewrite pretty_N_go_step by exact Hx.
  destruct (decide (x `div` 10 = 0)%N) as [Hdiv|Hdiv].
  - rewrite Hdiv, pretty_N_go_0. eexists _, _. split; [reflexivity|].
    apply N.div_small_iff in Hdiv; [|discriminate].
    rewrite N.mod_small by exact Hdiv. lia.
  - apply IH; [apply N.div_lt; [exact Hx | reflexivity] | by apply N.neq_0_lt_0].
Qed.

Lemma parseInt_digit_head (c : ascii) (t : string) :
  is_space c = false -> c <> "-"%char -> c <> "+"%char -> c <> "0"%char ->
  parseInt (VStr (String c t)) =
    match digits 10 None (String c t) with Some n => VNum n | None => VNaN end /\
  parseInt (VStr (String "-" (String c t))) =
    match digits 10 None (String c t) with Some n => VNum (- n) | None => VNaN end.
Proof.
  intros Hspace Hminus Hplus Hzero.
  destruct c as [[] [] [] [] [] [] [] []];
    try (split; reflexivity);
    solve [ vm_compute in Hspace; discriminate Hspace | congruence ].
Qed.

Lemma parseInt_numeral (x : N) :
  (0 < x)%N ->
  parseInt (VStr (pretty_N_go x EmptyString)) = VNum (Z.of_N x) /\
  parseInt (VStr ("-" +:+ pretty_N_go x EmptyString)) = VNum (- Z.of_N x).
Proof.
  intros Hx.
  pose proof (digits_pretty_N_go x EmptyString None eq_refl Hx) as Hdigits.
  destruct (pretty_N_go_head x EmptyString Hx) as (y & t & Hhead & Hy).
  rewrite Hhead in *.
  change ("-" +:+ String (pretty_N_char y) t)
    with (String "-" (String (pretty_N_char y) t)).
  assert (Hcases : (y = 1 \/ y = 2 \/ y = 3 \/ y = 4 \/ y = 5 \/ y = 6 \/
                    y = 7 \/ y = 8 \/ y = 9)%N) by lia.
  destruct (parseInt_digit_head (pretty_N_char y) t) as [Hpos Hneg].
  - repeat (destruct Hcases as [->|Hcases]; [reflexivity|]). by subst.
  - repeat (destruct Hcases as [->|Hcases]; [discriminate|]). by subst.
  - repeat (destruct Hcases as [->|Hcases]; [discriminate|]). by subst.
  - repeat (destruct Hcases as [->|Hcases]; [discriminate|]). by subst.
  - rewrite Hpos, Hneg, Hdigits. split; reflexivity.
Qed.

(** [parseInt] reads back the decimal numeral of an integer, and returns an
    integer as it is. *)
Lemma parseInt_decimal (z : Z) :
  parseInt (VStr (pretty z)) = VNum z /\ parseInt (VNum z) = VNum z.
Proof.
  assert (Hstr : parseInt (VStr (pretty z)) = VNum z).
  { destruct z as [|p|p]; [reflexivity| |].
    - apply (parseInt_numeral (Npos p)). lia.
    - apply (parseInt_numeral (Npos p)). lia. }
  split; [exact Hstr|]. exact Hstr.
Qed.

(** ** The search stage *)

Section Search.

Context `{Imports}.

Lemma searchFilter_string (this : FilterHelper) (term : string) (data : list value) :
  filterData this !! FILTER_TYPES.SEARCH = Some (VStr term) ->
  term <> EmptyString ->
  searchFilter this data =
    let searchValue := toLowerCase (trim term) in
    filterM (getIsValidSearch searchValue
               (if fuzzy_search then fuzzySearchCharacters searchValue else [])
               (if fuzzy_search then fuzzySearchGroups searchValue else [])) data.
Proof.
  intros Hterm Hne. unfold searchFilter, lookup_key. rewrite Hterm.
  cbn [from_option id truthy call_trim bind].
  by rewrite (proj2 (String.eqb_neq term EmptyString) Hne).
Qed.



End Search.




(** ** Filtering twice *)

Section Idempotence.

Context `{Imports}.


End Idempotence.



(** ** No exception on well-formed entries *)

Section Safety.

Context `{Imports}.

Variable this : FilterHelper.

Hypothesis criteria_ok : criteria_well_shaped (filterData this) = true.

Lemma well_formed_entry (e : value) : well_formed e = true -> Spec.is_entry e = true.
Proof.
  unfold well_formed, Spec.has_payload.
  intros [[He _]%andb_prop _]%andb_prop. exact He.
Qed.

Lemma well_formed_deck (e : value) : well_formed e = true -> Spec.deck_well_formed e = true.
Proof.
  unfold well_formed, Spec.has_payload, Spec.deck_well_formed.
  intros [[He Hp]%andb_prop _]%andb_prop. rewrite He, Hp. by rewrite orb_true_r.
Qed.

Lemma well_formed_character (e : value) :
  well_formed e = true -> Spec.character_well_formed e = true.
Proof.
  unfold well_formed, Spec.has_payload, Spec.character_well_formed.
  intros [[He Hp]%andb_prop _]%andb_prop. rewrite He, Hp. by rewrite orb_true_r.
Qed.

Lemma forallb_impl {A} (p q : A -> bool) (l : list A) :
  (forall x, p x = true -> q x = true) -> forallb p l = true -> forallb q l = true.
Proof.
  intros Hpq Hp. apply forallb_forall. intros x Hx.
  rewrite forallb_forall in Hp. auto.
Qed.

Lemma filterM_well_formed (cb : value -> result bool) (p : value -> bool) (data : list value) :
  (forall e, well_formed e = true -> cb e = Ok (p e)) ->
  forallb well_formed data = true ->
  filterM cb data = Ok (List.filter p data).
Proof.
  intros Hcb Hdata. apply filterM_pure. intros e He. apply Hcb.
  rewrite forallb_forall in Hdata. by apply Hdata, list_elem_of_In.
Qed.

Lemma list_filter_true {A} (l : list A) : List.filter (fun _ => true) l = l.
Proof. by apply list_filter_id. Qed.

(** On well-formed entries every stage is a plain filter. *)
Lemma call_well_formed (fn : method) (data : list value) :
  forallb well_formed data = true ->
  exists p, call this fn data = Ok (List.filter p data).
Proof.
  intros Hdata. pose proof criteria_ok as Hshape.
  unfold criteria_well_shaped in Hshape.
  apply andb_prop in Hshape as [[Hsearch Hsel]%andb_prop Hexc].
  destruct fn; cbn [call].
  - unfold searchFilter.
    destruct (lookup_key (filterData this) FILTER_TYPES.SEARCH) as [| |b|z| |s|r l|r l];
      cbn [truthy negb] in *; try rewrite Hsearch;
      try (exists (fun _ => true); by rewrite list_filter_true);
      try discriminate Hsearch.
    destruct (negb (negb (String.eqb s EmptyString)));
      [exists (fun _ => true); by rewrite list_filter_true|].
    cbn [call_trim bind]. destruct fuzzy_search eqn:Hfuzzy.
    + eexists. apply filterM_well_formed; [|exact Hdata].
      intros e He. apply getIsValidSearch_fuzzy; [exact Hfuzzy|].
      by apply well_formed_entry.
    + eexists. apply filterM_well_formed; [|exact Hdata].
      intros e He. apply getIsValidSearch_exact; [exact Hfuzzy| |].
      * by apply well_formed_entry.
      * unfold well_formed in He. by apply andb_prop in He as [_ ?].
  - unfold groupFilter.
    destruct (negb (truthy (lookup_key (filterData this) FILTER_TYPES.GROUP)));
      [exists (fun _ => true); by rewrite list_filter_true|].
    eexists. apply filterM_well_formed; [|exact Hdata].
    intros e He. by apply isGroupEntity_pure, well_formed_entry.
  - unfold favFilter.
    destruct (negb (truthy (lookup_key (filterData this) FILTER_TYPES.FAV)));
      [exists (fun _ => true); by rewrite list_filter_true|].
    eexists. apply filterM_well_formed; [|exact Hdata].
    intros e He. apply isFav_pure. unfold well_formed in He.
    by apply andb_prop in He as [? _].
  - unfold is_array_field in Hsel, Hexc.
    destruct (filterData this !! FILTER_TYPES.TAG) as [criteria|] eqn:Hcriteria;
      unfold lookup_key in Hsel, Hexc; rewrite Hcriteria in Hsel, Hexc;
      cbn [from_option id] in Hsel, Hexc; [|discriminate Hsel].
    destruct (get criteria "selected") as [[| | | | | |r1 selected|]|] eqn:Hs;
      try discriminate Hsel.
    destruct (get criteria "excluded") as [[| | | | | |r2 excluded|]|] eqn:He;
      try discriminate Hexc.
    eexists. eapply tagFilter_pure; eauto.
    intros _. revert Hdata. apply forallb_impl, well_formed_character.
  - unfold wiSearchFilter.
    destruct (negb (truthy (lookup_key (filterData this) FILTER_TYPES.WORLD_INFO_SEARCH)));
      [exists (fun _ => true); by rewrite list_filter_true|].
    eexists. apply filterM_well_formed; [|exact Hdata].
    intros e He. unfold isFound. rewrite get_entry by (by apply well_formed_entry).
    reflexivity.
  - eexists. apply hideCharactersAlreadyInDeck_pure.
    revert Hdata. apply forallb_impl, well_formed_deck.
Qed.

Lemma reduceM_well_formed (fns : list method) (data : list value) :
  forallb well_formed data = true ->
  exists out, reduceM (fun data fn => call this fn data) fns data = Ok out /\
              out `sublist_of` data.
Proof.
  revert data. induction fns as [|fn fns IH]; intros data Hdata; cbn [reduceM].
  - by exists data.
  - destruct (call_well_formed fn data Hdata) as [p ->]. cbn [bind].
    destruct (IH (List.filter p data)) as (out & -> & Hout).
    + eapply forallb_sublist; [apply list_filter_sublist | exact Hdata].
    + exists out. split; [reflexivity|]. etrans; [exact Hout | apply list_filter_sublist].
Qed.

(** C2 (as the code has it).  On entries that carry a payload, whose name,
    if there is one, is a string, no stage raises an exception, and neither
    does the pipeline: each returns a part of its input.  A payload without
    a favourite flag is not a favourite, a payload without a name matches no
    search, an entry without an entry in the tag index has no tag, and the
    deck stage returns a list unchanged when none of its decks has a member
    list. *)
Theorem C2_no_exception_on_well_formed_entries (data : list value) :
  forallb well_formed data = true ->
  (forall fn, exists out, call this fn data = Ok out /\ out `sublist_of` data) /\
  (exists out, applyFilters this data = Ok out /\ out `sublist_of` data) /\
  (forall e, e ∈ data -> Spec.field (Spec.payload e) "fav" = VUndefined ->
             isFav e = Ok false) /\
  (forall e searchValue, e ∈ data -> Spec.field (Spec.payload e) "name" = VUndefined ->
                         nameIncludes searchValue e = Ok false) /\
  (forall e tag, e ∈ data -> tag_map !! Spec.tag_key e = None ->
                 isElementTagged e tag = Ok false) /\
  ((forall d, d ∈ data -> Spec.is_kind "deck" d = true ->
               Spec.field (Spec.payload d) "characters" = VUndefined) ->
   hideCharactersAlreadyInDeck data = Ok data).
Proof.
  intros Hdata.
  assert (Hwf : forall e, e ∈ data -> well_formed e = true).
  { intros e He. rewrite forallb_forall in Hdata. by apply Hdata, list_elem_of_In. }
  split; [|split; [|split; [|split; [|split]]]].
  - intros fn. destruct (call_well_formed fn data Hdata) as [p ->].
    eexists. split; [reflexivity | apply list_filter_sublist].
  - by apply reduceM_well_formed.
  - intros e He Hfav. specialize (Hwf e He).
    unfold well_formed in Hwf. apply andb_prop in Hwf as [Hp _].
    rewrite isFav_pure by exact Hp. unfold is_favourite. by rewrite Hfav.
  - intros e searchValue He Hname. specialize (Hwf e He).
    rewrite nameIncludes_pure.
    + unfold Spec.name_matches, Spec.payload_name. by rewrite Hname.
    + by apply well_formed_entry.
    + unfold Spec.name_well_typed. by rewrite Hname.
  - intros e tag He Hnone. specialize (Hwf e He).
    rewrite isElementTagged_pure by (by apply well_formed_character).
    unfold Spec.has_tag. by rewrite Hnone.
  - intros Hnone. rewrite hideCharactersAlreadyInDeck_pure
      by (revert Hdata; apply forallb_impl, well_formed_deck).
    f_equal. apply list_filter_id. intros e _. apply negb_true_iff.
    destruct (Spec.in_deck (Spec.deck_members data) e) eqn:Hin; [exfalso|reflexivity].
    apply in_deck_string_member in Hin. unfold Spec.deck_members in Hin.
    apply list_elem_of_In, in_flat_map in Hin as (d & [Hd Hkind]%List.filter_In & Hin).
    unfold Spec.members_of in Hin.
    rewrite (Hnone d (proj2 (list_elem_of_In _ _) Hd) Hkind) in Hin.
    destruct Hin as [Heq|[]]. discriminate Heq.
Qed.

End Safety.

Lemma C2_witness :
  exists out,
    @applyFilters Sample.tagged (Sample.favourites)
       [Sample.alice; Sample.bob; Sample.group_g1; Sample.nameless; Sample.deck] = Ok out /\
    out `sublist_of` [Sample.alice; Sample.bob; Sample.group_g1; Sample.nameless; Sample.deck].
Proof.
  destruct (@C2_no_exception_on_well_formed_entries Sample.tagged Sample.favourites
              eq_refl
              [Sample.alice; Sample.bob; Sample.group_g1; Sample.nameless; Sample.deck]
              eq_refl)
    as (_ & Hpipeline & _).
  exact Hpipeline.
Defined.

(** C2: an entry without a payload makes the favourite stage, the tag
    stage and the deck stage raise a TypeError, and a name that is not a
    string makes the search stage raise one. *)
Lemma C2_malformed_entries_raise :
  @favFilter Sample.favourites [Sample.bare_character] = Throw TypeError /\
  @tagFilter Sample.tagged (Sample.tagging [VStr "A"] []) [Sample.bare_character] =
    Throw TypeError /\
  hideCharactersAlreadyInDeck [Sample.bare_deck] = Throw TypeError /\
  @searchFilter Sample.plain (Sample.searching "8") [Sample.numbered] = Throw TypeError.
Proof. repeat split; reflexivity. Qed.

(** ** JSON.stringify on criteria *)

Lemma append_cons (c : ascii) (a b : string) : String c a +:+ b = String c (a +:+ b).
Proof. reflexivity. Qed.

Lemma append_nil (b : string) : EmptyString +:+ b = b.
Proof. reflexivity. Qed.

Lemma append_assoc (a b c : string) : (a +:+ b) +:+ c = a +:+ (b +:+ c).
Proof.
  induction a as [|x a IH]; [reflexivity|].
  rewrite !append_cons. by f_equal.
Qed.

Ltac push_append :=
  repeat (rewrite append_assoc || rewrite append_cons || rewrite append_nil).
Ltac push_append_in H :=
  repeat (rewrite append_assoc in H || rewrite append_cons in H || rewrite append_nil in H).

Lemma json_unescape_escape (c : ascii) (r : string) :
  json_unescape (json_escape c +:+ r) = Some (c, r).
Proof. destruct c as [[] [] [] [] [] [] [] []]; reflexivity. Qed.

Lemma json_escape_head (c : ascii) (r : string) :
  exists h t, json_escape c +:+ r = String h t /\ h <> dquote.
Proof.
  destruct c as [[] [] [] [] [] [] [] []];
    (eexists _, _; split; [reflexivity | discriminate]).
Qed.

Lemma json_escape_all_inj (s s' r r' : string) :
  json_escape_all s +:+ String dquote r = json_escape_all s' +:+ String dquote r' ->
  s = s' /\ r = r'.
Proof.
  revert s'. induction s as [|c s IH]; intros [|c' s']; cbn [json_escape_all].
  - rewrite !append_nil. intros [= ->]. done.
  - rewrite append_nil, append_assoc. intros Heq.
    destruct (json_escape_head c' (json_escape_all s' +:+ String dquote r'))
      as (h & t & Hht & Hh).
    rewrite Hht in Heq. by injection Heq as <-.
  - rewrite append_nil, append_assoc. intros Heq.
    destruct (json_escape_head c (json_escape_all s +:+ String dquote r))
      as (h & t & Hht & Hh).
    rewrite Hht in Heq. by injection Heq as ->.
  - rewrite !append_assoc. intros Heq.
    apply (f_equal json_unescape) in Heq. rewrite !json_unescape_escape in Heq.
    injection Heq as -> Heq. apply IH in Heq as [-> ->]. done.
Qed.

Lemma json_quote_append (s r : string) :
  json_quote s +:+ r = String dquote (json_escape_all s +:+ String dquote r).
Proof. unfold json_quote. by push_append. Qed.

Lemma json_quote_inj (s s' r r' : string) :
  json_quote s +:+ r = json_quote s' +:+ r' -> s = s' /\ r = r'.
Proof.
  rewrite !json_quote_append. intros [= Heq]. by apply json_escape_all_inj.
Qed.

Lemma join_cons (p q : string) (ps : list string) :
  join (p :: q :: ps) = p +:+ "," +:+ join (q :: ps).
Proof. reflexivity. Qed.

(** The items of an array of strings, up to the closing bracket, determine
    the strings. *)
Lemma json_items_inj (l l' : list string) (r r' : string) :
  join (List.map json_quote l) +:+ String "]" r =
  join (List.map json_quote l') +:+ String "]" r' ->
  l = l' /\ r = r'.
Proof.
  revert l'. induction l as [|p ps IH]; intros [|p' ps']; cbn [List.map].
  - cbn [join]. rewrite !append_nil. intros [= ->]. done.
  - intros Heq. exfalso.
    destruct ps' as [|q' ps']; cbn [List.map] in Heq;
      [|rewrite join_cons in Heq]; cbn [join] in Heq; push_append_in Heq;
      rewrite json_quote_append in Heq; discriminate Heq.
  - intros Heq. exfalso.
    destruct ps as [|q ps]; cbn [List.map] in Heq;
      [|rewrite join_cons in Heq]; cbn [join] in Heq; push_append_in Heq;
      rewrite json_quote_append in Heq; discriminate Heq.
  - destruct ps as [|q ps], ps' as [|q' ps']; cbn [List.map].
    + cbn [join]. intros [-> [= ->]]%json_quote_inj. done.
    + rewrite join_cons. cbn [join]. rewrite append_assoc.
      intros [_ Heq]%json_quote_inj. push_append_in Heq. discriminate Heq.
    + rewrite join_cons. cbn [join]. rewrite append_assoc.
      intros [_ Heq]%json_quote_inj. push_append_in Heq. discriminate Heq.
    + rewrite !join_cons, !append_assoc.
      intros [-> Heq]%json_quote_inj. push_append_in Heq. injection Heq as Heq.
      destruct (IH (q' :: ps')) as [Hl Hr]; [exact Heq|].
      by rewrite Hl, Hr.
Qed.

Lemma append_nil_r (a : string) : a +:+ EmptyString = a.
Proof. induction a as [|x a IH]; [reflexivity|]. rewrite append_cons. by f_equal. Qed.

Lemma append_inv_l (p a b : string) : p +:+ a = p +:+ b -> a = b.
Proof.
  induction p as [|x p IH]; [by rewrite !append_nil|].
  rewrite !append_cons. intros [= Heq]. by apply IH.
Qed.

Lemma json_quote_eqb (s t : string) :
  String.eqb (json_quote s) (json_quote t) = String.eqb s t.
Proof.
  destruct (String.eqb s t) eqn:Hst.
  - apply String.eqb_eq in Hst as ->. apply String.eqb_refl.
  - apply String.eqb_neq. intros Heq. apply String.eqb_neq in Hst. apply Hst.
    rewrite <- (append_nil_r (json_quote s)), <- (append_nil_r (json_quote t)) in Heq.
    by apply json_quote_inj in Heq as [? _].
Qed.

Lemma json_strings (xs : list value) :
  forallb is_string xs = true ->
  List.map (fun x => default "null" (JSON_stringify x)) xs =
  List.map json_quote (List.map string_of xs).
Proof.
  induction xs as [|x xs IH]; [reflexivity|].
  cbn [forallb List.map]. intros [Hx Hxs]%andb_prop.
  rewrite IH by exact Hxs. by destruct x.
Qed.

Lemma tag_json_inj (xs ys xs' ys' : list string) :
  tag_json xs ys = tag_json xs' ys' -> xs = xs' /\ ys = ys'.
Proof.
  unfold tag_json. intros Heq. do 3 apply append_inv_l in Heq.
  apply json_items_inj in Heq as [-> Heq]. do 3 apply append_inv_l in Heq.
  by apply json_items_inj in Heq as [-> _].
Qed.

Lemma JSON_stringify_tags (r r1 r2 : loc) (xs ys : list value) :
  forallb is_string xs = true -> forallb is_string ys = true ->
  JSON_stringify (VObj r [("excluded", VArr r1 xs); ("selected", VArr r2 ys)]) =
    Some (tag_json (List.map string_of xs) (List.map string_of ys)).
Proof.
  intros Hxs Hys. cbn [JSON_stringify List.flat_map app].
  rewrite !json_strings by assumption. cbn [join]. unfold tag_json. f_equal.
  by push_append.
Qed.

Lemma deep_equal_cons (r r' : loc) (x y : value) (xs ys : list value) :
  Spec.deep_equal (VArr r (x :: xs)) (VArr r' (y :: ys)) =
  Spec.deep_equal x y && Spec.deep_equal (VArr r xs) (VArr r' ys).
Proof. reflexivity. Qed.

Lemma deep_equal_strings (r r' : loc) (xs ys : list value) :
  forallb is_string xs = true -> forallb is_string ys = true ->
  Spec.deep_equal (VArr r xs) (VArr r' ys) = true <->
  List.map string_of xs = List.map string_of ys.
Proof.
  revert ys. induction xs as [|x xs IH]; intros [|y ys]; cbn [forallb List.map];
    try (intros _ _; split; (reflexivity || discriminate)).
  intros [Hx Hxs]%andb_prop [Hy Hys]%andb_prop.
  rewrite deep_equal_cons, andb_true_iff, (IH ys Hxs Hys).
  destruct x, y; try discriminate. cbn [Spec.deep_equal same_value_zero strict_eq string_of].
  rewrite String.eqb_eq. split; [intros [-> ->]; reflexivity | intros [= -> ->]; done].
Qed.

Lemma deep_equal_tags (r r1 r2 r' r1' r2' : loc) (xs ys xs' ys' : list value) :
  Spec.deep_equal (VObj r [("excluded", VArr r1 xs); ("selected", VArr r2 ys)])
                  (VObj r' [("excluded", VArr r1' xs'); ("selected", VArr r2' ys')]) =
  Spec.deep_equal (VArr r1 xs) (VArr r1' xs') &&
  Spec.deep_equal (VArr r2 ys) (VArr r2' ys').
Proof.
  change (Spec.deep_equal (VObj r [("excluded", VArr r1 xs); ("selected", VArr r2 ys)])
            (VObj r' [("excluded", VArr r1' xs'); ("selected", VArr r2' ys')]))
    with (true && (true && Spec.deep_equal (VArr r1 xs) (VArr r1' xs') &&
                   (true && Spec.deep_equal (VArr r2 ys) (VArr r2' ys') && true))).
  cbn [andb]. by rewrite andb_true_r.
Qed.

Lemma bool_eq_iff (a b : bool) : (a = true <-> b = true) -> a = b.
Proof. destruct a, b; intros [H1 H2]; auto; try (symmetry; auto). Qed.

(** On criteria of the documented shapes the serialisations differ exactly
    when the values differ structurally. *)
Lemma json_differs_shaped (a b : value) :
  criterion_shaped a = true -> criterion_shaped b = true ->
  json_differs (JSON_stringify a) (JSON_stringify b) = negb (Spec.deep_equal a b).
Proof.
  intros Ha Hb.
  destruct a as [| |x| | |s|?|r [|[k1 [| | | | | |r1 xs|]] [|[k2 [| | | | | |r2 ys|]] [|]]]];
    try discriminate Ha;
  destruct b as [| |y| | |t|?|r' [|[k1' [| | | | | |r1' xs'|]] [|[k2' [| | | | | |r2' ys'|]] [|]]]];
    try discriminate Hb.
  - by destruct x, y.
  - destruct x; reflexivity.
  - cbn [criterion_shaped] in Hb.
    apply andb_prop in Hb as [[[->%String.eqb_eq ->%String.eqb_eq]%andb_prop Hxs']%andb_prop Hys'].
    rewrite JSON_stringify_tags by assumption. by destruct x.
  - destruct y; reflexivity.
  - cbn [JSON_stringify json_differs Spec.deep_equal same_value_zero strict_eq].
    by rewrite json_quote_eqb.
  - cbn [criterion_shaped] in Hb.
    apply andb_prop in Hb as [[[->%String.eqb_eq ->%String.eqb_eq]%andb_prop Hxs']%andb_prop Hys'].
    rewrite JSON_stringify_tags by assumption. reflexivity.
  - cbn [criterion_shaped] in Ha.
    apply andb_prop in Ha as [[[->%String.eqb_eq ->%String.eqb_eq]%andb_prop Hxs]%andb_prop Hys].
    rewrite JSON_stringify_tags by assumption. by destruct y.
  - cbn [criterion_shaped] in Ha.
    apply andb_prop in Ha as [[[->%String.eqb_eq ->%String.eqb_eq]%andb_prop Hxs]%andb_prop Hys].
    rewrite JSON_stringify_tags by assumption. reflexivity.
  - cbn [criterion_shaped] in Ha, Hb.
    apply andb_prop in Ha as [[[->%String.eqb_eq ->%String.eqb_eq]%andb_prop Hxs]%andb_prop Hys].
    apply andb_prop in Hb as [[[->%String.eqb_eq ->%String.eqb_eq]%andb_prop Hxs']%andb_prop Hys'].
    rewrite !JSON_stringify_tags by assumption. cbn [json_differs]. f_equal.
    rewrite deep_equal_tags. apply bool_eq_iff.
    rewrite String.eqb_eq, andb_true_iff, !deep_equal_strings by assumption.
    split; [intros Heq%tag_json_inj; exact Heq | intros [-> ->]; reflexivity].
Qed.

(** ** Change detection *)

(** C4 (as the code has it).  With the callback not suppressed,
    [setFilterData] calls it exactly once when the JSON serialisations of
    the stored value and of the new value differ, and not at all when they
    are the same; with the callback suppressed it never calls it.  On
    criteria of the documented shapes (a string, a boolean, a tag criterion
    listing [excluded] and [selected], each an array of strings) the
    serialisations differ exactly when the values differ under deep
    structural equality. *)
Theorem C4_setFilterData_notifies (this : FilterHelper) (filterType : string) (data : value) :
  let oldData := lookup_key (filterData this) filterType in
  dataChanged (setFilterData this filterType data false) =
    (if json_differs (JSON_stringify oldData) (JSON_stringify data)
     then S (dataChanged this) else dataChanged this) /\
  dataChanged (setFilterData this filterType data true) = dataChanged this /\
  (criterion_shaped oldData = true -> criterion_shaped data = true ->
   dataChanged (setFilterData this filterType data false) =
     if Spec.deep_equal oldData data then dataChanged this else S (dataChanged this)).
Proof.
  cbv zeta. unfold setFilterData.
  split; [|split].
  - rewrite andb_true_r. by destruct (json_differs _ _).
  - rewrite andb_false_r. reflexivity.
  - intros Hold Hnew. rewrite andb_true_r, json_differs_shaped by assumption.
    by destruct (Spec.deep_equal _ _).
Qed.

Lemma C4_witness :
  dataChanged (setFilterData new_FilterHelper FILTER_TYPES.TAG
                 (Sample.tag_criteria [] []) false) = 0%nat /\
  dataChanged (setFilterData new_FilterHelper FILTER_TYPES.TAG
                 (Sample.tag_criteria [VStr "A"] []) false) = 1%nat.
Proof.
  split.
  - destruct (C4_setFilterData_notifies new_FilterHelper FILTER_TYPES.TAG
                (Sample.tag_criteria [] [])) as (_ & _ & Hshaped).
    rewrite Hshaped; reflexivity.
  - destruct (C4_setFilterData_notifies new_FilterHelper FILTER_TYPES.TAG
                (Sample.tag_criteria [VStr "A"] [])) as (_ & _ & Hshaped).
    rewrite Hshaped; reflexivity.
Defined.

(** C4: the comparison is not deep structural equality.  The default tag
    criterion with its properties in the other order is deep-equal to the
    stored one, and the callback is called; [NaN] differs from a stored
    [null], and the callback is not called. *)
Lemma C4_not_deep_equality :
  (Spec.deep_equal (lookup_key (filterData new_FilterHelper) FILTER_TYPES.TAG)
     Sample.tag_criteria_reordered = true /\
   dataChanged (setFilterData new_FilterHelper FILTER_TYPES.TAG
                  Sample.tag_criteria_reordered false) =
     S (dataChanged new_FilterHelper)) /\
  (let this := setFilterData new_FilterHelper FILTER_TYPES.GROUP VNull true in
   Spec.deep_equal (lookup_key (filterData this) FILTER_TYPES.GROUP) VNaN = false /\
   dataChanged (setFilterData this FILTER_TYPES.GROUP VNaN false) = dataChanged this).
Proof. repeat split; reflexivity. Qed.

(** ** Worked scenarios *)

(** SEARCH = "alice", fuzzy search off: Alice and Alice's Group. *)
Example search_alice :
  @applyFilters Sample.plain (Sample.searching "alice")
     [Sample.alice; Sample.bob; Sample.group_g1] = Ok [Sample.alice; Sample.group_g1].
Proof. reflexivity. Qed.

(** FAVORITE = true: Alice only; the group has no favourite flag. *)
Example favourites_only :
  @applyFilters Sample.plain Sample.favourites
     [Sample.alice; Sample.bob; Sample.group_g1] = Ok [Sample.alice].
Proof. reflexivity. Qed.

(** TAG = {selected: [], excluded: ["nsfw"]}: Alice, tagged "nsfw", goes;
    the group, which has no entry in the tag index, stays. *)
Example exclude_nsfw :
  @applyFilters Sample.tagged (Sample.tagging [] [VStr "nsfw"])
     [Sample.alice; Sample.bob; Sample.group_g1] = Ok [Sample.bob; Sample.group_g1].
Proof. reflexivity. Qed.

(** TAG = {selected: ["A", "nsfw"], excluded: []}: Bob, tagged "A" only,
    goes; Alice, tagged with both, stays. *)
Example select_both_tags :
  @applyFilters Sample.tagged (Sample.tagging [VStr "A"; VStr "nsfw"] [])
     [Sample.alice; Sample.bob; Sample.group_g1] = Ok [Sample.alice].
Proof. reflexivity. Qed.

(** The callback is called for a new search string, and not when the same
    string is set again. *)
Example notified_once :
  dataChanged (Sample.searching "alice") = 1%nat /\
  dataChanged (setFilterData (Sample.searching "alice") FILTER_TYPES.SEARCH
                 (VStr "alice") false) = 1%nat.
Proof. split; reflexivity. Qed.

(** * Further properties of the class *)

(** ** A callback that raises on some entries *)

Lemma filterM_guarded {A} (cb : A -> result bool) (ok p : A -> bool) (l : list A) :
  (forall x, cb x = if ok x then Ok (p x) else Throw TypeError) ->
  filterM cb l = if forallb ok l then Ok (List.filter p l) else Throw TypeError.
Proof.
  intros Hcb. induction l as [|x l IH]; cbn [filterM forallb List.filter]; [reflexivity|].
  rewrite Hcb, IH. destruct (ok x); cbn [bind andb]; [|reflexivity].
  destruct (forallb ok l); cbn [bind]; [|reflexivity]. by destruct (p x).
Qed.

Lemma isGroupEntity_guarded (e : value) :
  isGroupEntity e =
    if Spec.is_entry e then Ok (Spec.is_kind "group" e) else Throw TypeError.
Proof.
  destruct (Spec.is_entry e) eqn:He; [by apply isGroupEntity_pure|].
  unfold isGroupEntity. by rewrite get_nullish.
Qed.

Lemma isFav_guarded (e : value) :
  isFav e = if Spec.has_payload e then Ok (is_favourite e) else Throw TypeError.
Proof.
  destruct (Spec.has_payload e) eqn:Hp; [by apply isFav_pure|].
  unfold isFav, Spec.has_payload in *.
  destruct (Spec.is_entry e) eqn:He; [|by rewrite get_nullish].
  rewrite get_entry by exact He. cbn [bind andb] in *. fold (Spec.payload e).
  rewrite get_nullish; [reflexivity|]. unfold Spec.is_entry.
  by destruct (nullish (Spec.payload e)).
Qed.

Lemma isFound_guarded (results : list value) (e : value) :
  isFound results e =
    if Spec.is_entry e then Ok (includes results (Spec.field e "uid"))
    else Throw TypeError.
Proof.
  unfold isFound. destruct (Spec.is_entry e) eqn:He.
  - by rewrite get_entry.
  - by rewrite get_nullish.
Qed.

Section StageResults.

Context `{Imports}.

Variable this : FilterHelper.

(** X1.  [groupFilter] returns its input untouched while the GROUP criterion
    is falsy.  Otherwise it reads the [type] of every entry: it raises a
    TypeError if some entry is [undefined] or [null], and else keeps exactly
    the entries whose type is the string "group". *)
Theorem groupFilter_result (data : list value) :
  groupFilter this data =
    if truthy (lookup_key (filterData this) FILTER_TYPES.GROUP)
    then if forallb Spec.is_entry data
         then Ok (List.filter (Spec.is_kind "group") data)
         else Throw TypeError
    else Ok data.
Proof.
  unfold groupFilter.
  destruct (truthy (lookup_key (filterData this) FILTER_TYPES.GROUP)); cbn [negb];
    [|reflexivity].
  apply filterM_guarded, isGroupEntity_guarded.
Qed.

(** X2.  [favFilter] returns its input untouched while the FAV criterion is
    falsy.  Otherwise it raises a TypeError if some entry has no payload, and
    else keeps exactly the entries whose [fav] flag is truthy: the test
    [== "true"] adds nothing, the string "true" being truthy already, and
    any other non-empty string counts as a favourite as well. *)
Theorem favFilter_result (data : list value) :
  favFilter this data =
    if truthy (lookup_key (filterData this) FILTER_TYPES.FAV)
    then if forallb Spec.has_payload data
         then Ok (List.filter (fun e => truthy (Spec.field (Spec.payload e) "fav")) data)
         else Throw TypeError
    else Ok data.
Proof.
  unfold favFilter.
  destruct (truthy (lookup_key (filterData this) FILTER_TYPES.FAV)); cbn [negb];
    [|reflexivity].
  apply (filterM_guarded isFav Spec.has_payload is_favourite), isFav_guarded.
Qed.

(** X3.  [wiSearchFilter] returns its input untouched while the
    WORLD_INFO_SEARCH criterion is falsy.  Otherwise it hands the list it
    received, with the criterion, to [fuzzySearchWorldInfo], raises a
    TypeError if some entry is [undefined] or [null], and else keeps exactly
    the entries whose [uid] is among the results. *)
Theorem wiSearchFilter_result (data : list value) :
  let term := lookup_key (filterData this) FILTER_TYPES.WORLD_INFO_SEARCH in
  wiSearchFilter this data =
    if truthy term
    then if forallb Spec.is_entry data
         then Ok (List.filter
                    (fun e => includes (fuzzySearchWorldInfo data term) (Spec.field e "uid"))
                    data)
         else Throw TypeError
    else Ok data.
Proof.
  cbv zeta. unfold wiSearchFilter.
  destruct (truthy (lookup_key (filterData this) FILTER_TYPES.WORLD_INFO_SEARCH));
    cbn [negb]; [|reflexivity].
  apply filterM_guarded. intros e. apply isFound_guarded.
Qed.

End StageResults.

(** X4.  [hideCharactersAlreadyInDeck] raises a TypeError exactly when some
    entry is [undefined] or [null] or some deck has no payload; on any other
    list it returns the entries whose stringified identifier is not a member
    of a deck of the list. *)
Theorem hideCharactersAlreadyInDeck_result (data : list value) :
  hideCharactersAlreadyInDeck data =
    if forallb Spec.deck_well_formed data
    then Ok (List.filter (fun e => negb (Spec.in_deck (Spec.deck_members data) e)) data)
    else Throw TypeError.
Proof.
  destruct (forallb Spec.deck_well_formed data) eqn:Hwf;
    [by apply hideCharactersAlreadyInDeck_pure|].
  destruct (hideCharactersAlreadyInDeck data) as [m|[]] eqn:Hm; [|reflexivity].
  apply hideCharactersAlreadyInDeck_returns in Hm. congruence.
Qed.

(** ** What the pipeline returns *)

Section Pipeline.

Context `{Imports}.

Variable this : FilterHelper.

Lemma call_sublist (fn : method) (l m : list value) :
  call this fn l = Ok m -> m `sublist_of` l.
Proof.
  destruct fn; cbn [call]; intros Hm.
  - by apply (selection_searchFilter this) in Hm as [? _].
  - by apply (selection_groupFilter this) in Hm as [? _].
  - by apply (selection_favFilter this) in Hm as [? _].
  - by apply (selection_tagFilter this) in Hm as [? _].
  - unfold wiSearchFilter in Hm. destruct (negb _).
    + by injection Hm as <-.
    + by eapply filterM_sublist.
  - by apply selection_hideCharactersAlreadyInDeck in Hm as [? _].
Qed.

Lemma reduceM_call_sublist (fns : list method) (l m : list value) :
  reduceM (fun data fn => call this fn data) fns l = Ok m -> m `sublist_of` l.
Proof.
  revert l. induction fns as [|fn fns IH]; intros l; cbn [reduceM].
  - by intros [= <-].
  - intros (l1 & H1 & Hm)%bind_Ok_inv. etrans; [by apply IH | by eapply call_sublist].
Qed.

(** X5.  Whatever the criteria, a list returned by [applyFilters] is a
    sub-list of the input: the surviving entries appear in their original
    order, none is added, changed or repeated, and the result is never
    longer than the input. *)
Theorem applyFilters_sublist (data m : list value) :
  applyFilters this data = Ok m ->
  m `sublist_of` data /\
  (forall e, e ∈ m -> e ∈ data) /\
  (List.length m <= List.length data)%nat /\
  (NoDup data -> NoDup m).
Proof.
  intros Hm%reduceM_call_sublist. split; [exact Hm|]. split; [|split].
  - intros e He. by eapply elem_of_sublist.
  - by apply sublist_length.
  - intros Hnodup. by eapply sublist_NoDup.
Qed.

End Pipeline.

Lemma applyFilters_sublist_witness :
  [Sample.alice] `sublist_of` [Sample.alice; Sample.bob; Sample.group_g1].
Proof.
  destruct (@applyFilters_sublist Sample.plain Sample.favourites
              [Sample.alice; Sample.bob; Sample.group_g1] [Sample.alice] eq_refl)
    as [Hsub _].
  exact Hsub.
Defined.

Lemma list_filter_filter {A} (p q : A -> bool) (l : list A) :
  List.filter q (List.filter p l) = List.filter (fun x => p x && q x) l.
Proof.
  induction l as [|x l IH]; cbn [List.filter]; [reflexivity|].
  destruct (p x); cbn [List.filter andb]; [|exact IH].
  destruct (q x); by rewrite IH.
Qed.

Lemma list_filter_ext {A} (p q : A -> bool) (l : list A) :
  (forall x, p x = q x) -> List.filter p l = List.filter q l.
Proof. intros Hpq. apply List.filter_ext_in. auto. Qed.

Lemma forallb_filter {A} (ok p : A -> bool) (l : list A) :
  forallb ok l = true -> forallb ok (List.filter p l) = true.
Proof. apply forallb_sublist, list_filter_sublist. Qed.

Section ClosedForm.

Context `{Imports}.

Variable this : FilterHelper.

Hypothesis criteria_ok : criteria_well_shaped (filterData this) = true.

Lemma searchFilter_keeps (l : list value) :
  forallb well_formed l = true ->
  searchFilter this l = Ok (List.filter (search_keeps this) l).
Proof.
  intros Hl. pose proof criteria_ok as Hshape. unfold criteria_well_shaped in Hshape.
  apply andb_prop in Hshape as [[Hsearch _]%andb_prop _].
  unfold search_keeps.
  destruct (filterData this !! FILTER_TYPES.SEARCH) as [c|] eqn:Hc;
    unfold lookup_key in *; rewrite Hc in *; cbn [from_option id] in *.
  - destruct c as [| |b|z| |term|r elems|r props];
      try (unfold searchFilter, lookup_key; rewrite Hc; cbn [from_option id];
           rewrite Hsearch; by rewrite list_filter_true).
    destruct (String.eqb term EmptyString) eqn:Hterm.
    + unfold searchFilter, lookup_key. rewrite Hc. cbn [from_option id truthy].
      rewrite Hterm. cbn [negb]. by rewrite list_filter_true.
    + apply String.eqb_neq in Hterm.
      rewrite (searchFilter_string this term) by assumption. cbv zeta.
      apply filterM_well_formed; [|exact Hl]. intros e He.
      destruct fuzzy_search eqn:Hfuzzy.
      * apply getIsValidSearch_fuzzy; [exact Hfuzzy | by apply well_formed_entry].
      * apply getIsValidSearch_exact; [exact Hfuzzy | by apply well_formed_entry |].
        unfold well_formed in He. by apply andb_prop in He as [_ ?].
  - unfold searchFilter, lookup_key. rewrite Hc. cbn. by rewrite list_filter_true.
Qed.

Lemma groupFilter_keeps (l : list value) :
  forallb well_formed l = true ->
  groupFilter this l = Ok (List.filter (group_keeps this) l).
Proof.
  intros Hl. rewrite groupFilter_result. unfold group_keeps.
  rewrite (forallb_impl well_formed Spec.is_entry l well_formed_entry Hl).
  destruct (truthy _); cbn [negb orb]; [reflexivity | by rewrite list_filter_true].
Qed.

Lemma well_formed_payload (e : value) : well_formed e = true -> Spec.has_payload e = true.
Proof. unfold well_formed. by intros [? _]%andb_prop. Qed.

Lemma favFilter_keeps (l : list value) :
  forallb well_formed l = true ->
  favFilter this l = Ok (List.filter (fav_keeps this) l).
Proof.
  intros Hl. rewrite favFilter_result. unfold fav_keeps.
  rewrite (forallb_impl well_formed Spec.has_payload l well_formed_payload Hl).
  destruct (truthy _); cbn [negb orb]; [reflexivity | by rewrite list_filter_true].
Qed.

Lemma tagFilter_keeps (l : list value) :
  forallb well_formed l = true ->
  tagFilter this l = Ok (List.filter (tags_keep this) l).
Proof.
  intros Hl. pose proof criteria_ok as Hshape. unfold criteria_well_shaped in Hshape.
  apply andb_prop in Hshape as [[_ Hsel]%andb_prop Hexc].
  unfold is_array_field in Hsel, Hexc. unfold tags_keep. cbv zeta.
  destruct (filterData this !! FILTER_TYPES.TAG) as [criteria|] eqn:Hcriteria;
    unfold lookup_key in *; rewrite Hcriteria in *;
    cbn [from_option id] in *; [|discriminate Hsel].
  unfold Spec.field.
  destruct (get criteria "selected") as [[| | | | | |r1 selected|]|] eqn:Hs;
    try discriminate Hsel.
  destruct (get criteria "excluded") as [[| | | | | |r2 excluded|]|] eqn:He;
    try discriminate Hexc.
  cbn [array_elements]. eapply tagFilter_pure; eauto.
  intros _. revert Hl. apply forallb_impl, well_formed_character.
Qed.

Lemma wiSearchFilter_keeps (l : list value) :
  forallb well_formed l = true ->
  wiSearchFilter this l = Ok (List.filter (wi_keeps this l) l).
Proof.
  intros Hl. rewrite wiSearchFilter_result. unfold wi_keeps. cbv zeta.
  rewrite (forallb_impl well_formed Spec.is_entry l well_formed_entry Hl).
  destruct (truthy _); cbn [negb orb]; [reflexivity | by rewrite list_filter_true].
Qed.

(** X6.  On well-formed entries and criteria, the search string and the
    names being ASCII and the identifiers in the range where the model's
    [String] and [parseInt] are those of JavaScript, the pipeline has a
    closed form.  The search, group, favourite and tag stages together keep the
    entries that pass all four tests, so the order of these four stages
    does not matter; the world-info matcher then receives the list they
    kept, not the original list; the deck stage finally looks only at the
    decks that are left at that point. *)
Theorem applyFilters_closed_form (data : list value) :
  filterFunctions this = init_filterFunctions ->
  ascii_search (filterData this) = true ->
  forallb (fun e => well_formed e && ascii_name e && safe_identifier (Spec.identifier e))
          data = true ->
  applyFilters this data = Ok (filtered this data).
Proof.
  intros Hfns _ Hrange.
  assert (Hdata : forallb well_formed data = true).
  { rewrite forallb_forall in Hrange |- *. intros e He.
    destruct (andb_prop _ _ (Hrange e He)) as [Hwf _]. by apply andb_prop in Hwf as [? _]. }
  unfold applyFilters. rewrite Hfns.
  cbn [List.map snd init_filterFunctions reduceM call].
  rewrite searchFilter_keeps by exact Hdata. cbn [bind].
  rewrite groupFilter_keeps by (by apply forallb_filter). cbn [bind].
  rewrite list_filter_filter.
  rewrite favFilter_keeps by (by apply forallb_filter). cbn [bind].
  rewrite list_filter_filter.
  rewrite tagFilter_keeps by (by apply forallb_filter). cbn [bind].
  rewrite list_filter_filter.
  set (kept := List.filter _ data).
  assert (Hkept : forallb well_formed kept = true) by (by apply forallb_filter).
  rewrite wiSearchFilter_keeps by exact Hkept. cbn [bind].
  rewrite hideCharactersAlreadyInDeck_pure; [reflexivity|].
  apply forallb_filter. revert Hkept. apply forallb_impl, well_formed_deck.
Qed.

End ClosedForm.

Lemma applyFilters_closed_form_witness :
  @applyFilters Sample.tagged (Sample.tagging [VStr "A"] [])
     [Sample.deck; Sample.alice; Sample.bob; Sample.group_g1] = Ok [Sample.alice; Sample.bob].
Proof.
  rewrite (@applyFilters_closed_form Sample.tagged (Sample.tagging [VStr "A"] []));
    reflexivity.
Defined.

(** ** Every returned entry passes every test *)

Lemma mapM_Throw {A B} (cb : A -> result B) (l : list A) (e : exn) :
  l <> [] -> (forall x, cb x = Throw e) -> mapM cb l = Throw e.
Proof. destruct l as [|x l]; [done|]. intros _ Hcb. cbn [mapM]. by rewrite Hcb. Qed.

Lemma nameIncludes_Ok (searchValue : string) (e : value) (b : bool) :
  nameIncludes searchValue e = Ok b -> b = Spec.name_matches searchValue e.
Proof.
  unfold nameIncludes. intros Hb.
  apply bind_Ok_inv in Hb as (item & Hitem & Hb).
  apply get_returns in Hitem as [He ->].
  destruct (Spec.name_well_typed e) eqn:Hname.
  - pose proof (nameIncludes_pure searchValue e He Hname) as Hpure.
    unfold nameIncludes in Hpure. rewrite get_entry in Hpure by exact He.
    cbn [bind] in Hpure. congruence.
  - unfold Spec.name_well_typed, Spec.payload in Hname.
    destruct (nullish (Spec.field e "item")) eqn:Hnull.
    + destruct (Spec.field e "item"); try discriminate Hnull; discriminate Hname.
    + rewrite get_entry in Hb by (unfold Spec.is_entry; by rewrite Hnull).
      cbn [bind] in Hb.
      destruct (Spec.field (Spec.field e "item") "name");
        try discriminate Hname; discriminate Hb.
Qed.

Section Sound.

Context `{Imports}.

Variable this : FilterHelper.

Lemma isElementTagged_guarded (e tag : value) :
  isElementTagged e tag =
    if Spec.character_well_formed e then Ok (Spec.has_tag e tag) else Throw TypeError.
Proof.
  destruct (Spec.character_well_formed e) eqn:Hwf; [by apply isElementTagged_pure|].
  unfold isElementTagged, Spec.character_well_formed in *.
  destruct (Spec.is_entry e) eqn:He; [|by rewrite get_nullish].
  rewrite get_entry by exact He. cbn [bind andb] in *. rewrite strict_eq_kind.
  destruct (Spec.is_kind "character" e); [|discriminate Hwf].
  cbn [negb orb] in Hwf. rewrite get_entry by exact He. cbn [bind].
  fold (Spec.payload e). rewrite get_nullish; [reflexivity|].
  unfold Spec.is_entry. by destruct (nullish (Spec.payload e)).
Qed.

Lemma getIsTagged_Ok (r1 r2 : loc) (selected excluded : list value) (e : value) (b : bool) :
  selected <> [] \/ excluded <> [] ->
  getIsTagged (VArr r1 selected) (VArr r2 excluded) e = Ok b ->
  b = Spec.tag_keeps selected excluded e.
Proof.
  intros Hne Hb. destruct (Spec.character_well_formed e) eqn:Hwf.
  - rewrite getIsTagged_pure in Hb by exact Hwf. congruence.
  - exfalso. unfold getIsTagged, call_map in Hb.
    assert (Hthrow : forall tag, isElementTagged e tag = Throw TypeError)
      by (intros tag; by rewrite isElementTagged_guarded, Hwf).
    destruct selected as [|s selected].
    + cbn [mapM bind] in Hb. destruct Hne as [Hne|Hne]; [done|].
      rewrite (mapM_Throw _ excluded TypeError Hne Hthrow) in Hb. discriminate Hb.
    + rewrite (mapM_Throw _ (s :: selected) TypeError) in Hb by (done || exact Hthrow).
      discriminate Hb.
Qed.

Lemma searchFilter_kept (l m : list value) (e : value) :
  searchFilter this l = Ok m -> e ∈ m -> search_keeps this e = true.
Proof.
  unfold searchFilter, search_keeps.
  destruct (lookup_key (filterData this) FILTER_TYPES.SEARCH) as [| |b|z| |term|r xs|r ps];
    try reflexivity.
  cbn [truthy]. destruct (String.eqb term EmptyString); cbn [negb]; [reflexivity|].
  cbn [call_trim bind]. intros Hm He.
  destruct (filterM_kept _ _ _ e Hm He) as [_ Hkept].
  unfold getIsValidSearch in Hkept.
  apply bind_Ok_inv in Hkept as (ty & Hty & Hkept).
  apply get_returns in Hty as [Hentry ->].
  destruct fuzzy_search eqn:Hfuzzy.
  - pose proof (getIsValidSearch_fuzzy (toLowerCase (trim term))
                  (fuzzySearchCharacters (toLowerCase (trim term)))
                  (fuzzySearchGroups (toLowerCase (trim term))) e Hfuzzy Hentry) as Hpure.
    unfold getIsValidSearch in Hpure. rewrite get_entry in Hpure by exact Hentry.
    cbn [bind] in Hpure. rewrite Hfuzzy in Hpure. congruence.
  - by apply nameIncludes_Ok in Hkept.
Qed.

Lemma tagFilter_kept (l m : list value) (e : value) :
  is_array_field (lookup_key (filterData this) FILTER_TYPES.TAG) "selected" = true ->
  is_array_field (lookup_key (filterData this) FILTER_TYPES.TAG) "excluded" = true ->
  tagFilter this l = Ok m -> e ∈ m -> tags_keep this e = true.
Proof.
  unfold is_array_field, tagFilter, tags_keep, Spec.field. cbv zeta.
  destruct (get _ "selected") as [[| | | | | |r1 selected|]|]; try discriminate.
  destruct (get _ "excluded") as [[| | | | | |r2 excluded|]|]; try discriminate.
  intros _ _. cbn [bind get array_elements]. rewrite String.eqb_refl, !truthy_length.
  destruct selected as [|s selected]; [destruct excluded as [|x excluded]|];
    cbn [negb bind]; [reflexivity| |]; intros Hm He;
    destruct (filterM_kept _ _ _ e Hm He) as [_ Hkept];
    apply getIsTagged_Ok in Hkept; try done; [by right | by left].
Qed.

Lemma hideCharactersAlreadyInDeck_kept (l m : list value) (e : value) :
  hideCharactersAlreadyInDeck l = Ok m -> e ∈ m ->
  Spec.in_deck (Spec.deck_members m) e = false.
Proof.
  intros Hm He. pose proof (hideCharactersAlreadyInDeck_returns _ _ Hm) as Hl.
  rewrite hideCharactersAlreadyInDeck_pure in Hm by exact Hl. injection Hm as <-.
  apply elem_of_list_filter in He as [_ He]. apply negb_true_iff in He.
  destruct (Spec.in_deck (Spec.deck_members (List.filter _ l)) e) eqn:Hin; [|reflexivity].
  unfold Spec.in_deck in *.
  erewrite includes_mono in He; [discriminate He | | exact Hin].
  apply deck_members_sublist, list_filter_sublist.
Qed.

(** X7.  Whatever the shape of the entries, the search string and their
    names being ASCII and their identifiers in the range where the model's
    [String] and [parseInt] are those of JavaScript, every entry of a list
    returned by [applyFilters] is an entry of the input that passes the search test, is
    a group when the GROUP criterion is set, has a truthy favourite flag
    when the FAV criterion is set, passes the tag test (the tag criterion
    holding two arrays), and is not hidden by any deck of the returned
    list. *)
Theorem applyFilters_sound (data m : list value) (e : value) :
  filterFunctions this = init_filterFunctions ->
  ascii_search (filterData this) = true ->
  forallb (fun x => ascii_name x && safe_identifier (Spec.identifier x)) data = true ->
  applyFilters this data = Ok m ->
  e ∈ m ->
  e ∈ data /\
  search_keeps this e = true /\
  group_keeps this e = true /\
  fav_keeps this e = true /\
  (is_array_field (lookup_key (filterData this) FILTER_TYPES.TAG) "selected" = true ->
   is_array_field (lookup_key (filterData this) FILTER_TYPES.TAG) "excluded" = true ->
   tags_keep this e = true) /\
  Spec.in_deck (Spec.deck_members m) e = false.
Proof.
  intros Hfns _ _ Hm He.
  assert (Hdata : e ∈ data).
  { eapply elem_of_sublist; [exact He|]. by eapply reduceM_call_sublist. }
  unfold applyFilters in Hm. rewrite Hfns in Hm.
  cbn [List.map snd init_filterFunctions reduceM call] in Hm.
  apply bind_Ok_inv in Hm as (l1 & H1 & Hm). apply bind_Ok_inv in Hm as (l2 & H2 & Hm).
  apply bind_Ok_inv in Hm as (l3 & H3 & Hm). apply bind_Ok_inv in Hm as (l4 & H4 & Hm).
  apply bind_Ok_inv in Hm as (l5 & H5 & Hm). apply bind_Ok_inv in Hm as (l6 & H6 & [= ->]).
  assert (He5 : e ∈ l5) by (eapply elem_of_sublist; [exact He | by eapply (call_sublist this HideCharactersAlreadyInDeck)]).
  assert (He4 : e ∈ l4) by (eapply elem_of_sublist; [exact He5 | by eapply (call_sublist this WiSearchFilter)]).
  assert (He3 : e ∈ l3) by (eapply elem_of_sublist; [exact He4 | by eapply (call_sublist this TagFilter)]).
  assert (He2 : e ∈ l2) by (eapply elem_of_sublist; [exact He3 | by eapply (call_sublist this FavFilter)]).
  assert (He1 : e ∈ l1) by (eapply elem_of_sublist; [exact He2 | by eapply (call_sublist this GroupFilter)]).
  split; [exact Hdata|]. split; [by eapply searchFilter_kept|]. split; [|split; [|split]].
  - unfold group_keeps. rewrite groupFilter_result in H2.
    destruct (truthy _); [|reflexivity]. destruct (forallb _ l1); [|discriminate H2].
    injection H2 as <-. by apply elem_of_list_filter in He2 as [_ ->].
  - unfold fav_keeps, is_favourite. rewrite favFilter_result in H3.
    destruct (truthy (lookup_key _ _)); [|reflexivity].
    destruct (forallb _ l2); [|discriminate H3].
    injection H3 as <-. by apply elem_of_list_filter in He3 as [_ ->].
  - intros Hsel Hexc. by eapply tagFilter_kept.
  - by eapply hideCharactersAlreadyInDeck_kept.
Qed.

End Sound.

Lemma applyFilters_sound_witness :
  @fav_keeps Sample.favourites Sample.alice = true.
Proof.
  destruct (@applyFilters_sound Sample.plain Sample.favourites
              [Sample.alice; Sample.bob; Sample.group_g1] [Sample.alice] Sample.alice
              eq_refl eq_refl eq_refl eq_refl) as (_ & _ & _ & Hfav & _).
  - by left.
  - exact Hfav.
Defined.

(** ** Criteria the stages cannot use *)

Section Criteria.

Context `{Imports}.

Variable this : FilterHelper.

Lemma searchFilter_Throw (l : list value) :
  let criteria := lookup_key (filterData this) FILTER_TYPES.SEARCH in
  truthy criteria = true -> is_string criteria = false ->
  searchFilter this l = Throw TypeError.
Proof.
  cbv zeta. unfold searchFilter. intros -> Hstring. cbn [negb].
  by destruct (lookup_key (filterData this) FILTER_TYPES.SEARCH).
Qed.

Lemma tagFilter_Throw (l : list value) :
  let criteria := lookup_key (filterData this) FILTER_TYPES.TAG in
  nullish criteria = true \/ nullish (Spec.field criteria "selected") = true ->
  tagFilter this l = Throw TypeError.
Proof.
  cbv zeta. unfold tagFilter.
  destruct (Spec.is_entry (lookup_key (filterData this) FILTER_TYPES.TAG)) eqn:Hc.
  - intros [Hnull|Hsel].
    + unfold Spec.is_entry in Hc. rewrite Hnull in Hc. discriminate Hc.
    + rewrite !get_entry by exact Hc. cbn [bind].
      rewrite get_nullish; [reflexivity|]. unfold Spec.is_entry. by rewrite Hsel.
  - intros _. by rewrite get_nullish.
Qed.

(** X8.  Criteria are stored unchecked, and a criterion the stages cannot
    use makes [applyFilters] raise a TypeError on every list, the empty list
    included: a SEARCH criterion that is truthy and not a string, a TAG
    criterion that is [undefined] or [null], or one without a [selected]
    property. *)
Theorem applyFilters_unusable_criteria (data : list value) :
  let search := lookup_key (filterData this) FILTER_TYPES.SEARCH in
  let tag := lookup_key (filterData this) FILTER_TYPES.TAG in
  filterFunctions this = init_filterFunctions ->
  (truthy search = true /\ is_string search = false) \/
  nullish tag = true \/ nullish (Spec.field tag "selected") = true ->
  applyFilters this data = Throw TypeError.
Proof.
  cbv zeta. intros Hfns Hbad. unfold applyFilters. rewrite Hfns.
  cbn [List.map snd init_filterFunctions reduceM call].
  destruct Hbad as [[Htruthy Hstring]|Htag].
  - by rewrite searchFilter_Throw.
  - destruct (searchFilter this data) as [l1|[]]; cbn [bind]; [|reflexivity].
    destruct (groupFilter this l1) as [l2|[]]; cbn [bind]; [|reflexivity].
    destruct (favFilter this l2) as [l3|[]]; cbn [bind]; [|reflexivity].
    by rewrite tagFilter_Throw.
Qed.

(** X9.  On the empty list [applyFilters] returns the empty list exactly
    when the criteria are usable by the search stage and the tag stage, and
    raises a TypeError otherwise; the other criteria never matter. *)
Theorem applyFilters_empty :
  filterFunctions this = init_filterFunctions ->
  applyFilters this [] =
    if criteria_usable (filterData this) then Ok [] else Throw TypeError.
Proof.
  intros Hfns. unfold applyFilters, criteria_usable. rewrite Hfns. cbv zeta.
  cbn [List.map snd init_filterFunctions reduceM call].
  unfold searchFilter, groupFilter, favFilter, tagFilter, wiSearchFilter.
  set (search := lookup_key (filterData this) FILTER_TYPES.SEARCH).
  set (tag := lookup_key (filterData this) FILTER_TYPES.TAG).
  assert (Hsearch :
    (if negb (truthy search) then Ok []
     else do trimmed <- call_trim search;
          filterM (getIsValidSearch (toLowerCase trimmed)
                     (if fuzzy_search then fuzzySearchCharacters (toLowerCase trimmed) else [])
                     (if fuzzy_search then fuzzySearchGroups (toLowerCase trimmed) else []))
                  []) =
    if negb (truthy search) || is_string search then Ok [] else Throw TypeError).
  { destruct (negb (truthy search)) eqn:Ht; [reflexivity|].
    destruct search; try reflexivity. }
  rewrite Hsearch. clear Hsearch.
  destruct (negb (truthy search) || is_string search); cbn [bind andb]; [|reflexivity].
  assert (Hgroup : forall c, (if negb (truthy c) then Ok [] else filterM isGroupEntity [])
                             = Ok (@nil value)) by (intros c; by destruct (negb _)).
  assert (Hfav : forall c, (if negb (truthy c) then Ok [] else filterM isFav [])
                           = Ok (@nil value)) by (intros c; by destruct (negb _)).
  rewrite Hgroup. cbn [bind]. rewrite Hfav. cbn [bind].
  destruct (nullish tag) eqn:Htag.
  { rewrite get_nullish by (unfold Spec.is_entry; by rewrite Htag). reflexivity. }
  rewrite !get_entry by (unfold Spec.is_entry; by rewrite Htag). cbn [bind negb andb].
  destruct (nullish (Spec.field tag "selected")) eqn:Hsel.
  { rewrite get_nullish by (unfold Spec.is_entry; by rewrite Hsel). reflexivity. }
  rewrite get_entry by (unfold Spec.is_entry; by rewrite Hsel). cbn [bind negb andb].
  destruct (truthy (Spec.field (Spec.field tag "selected") "length")); cbn [negb bind orb].
  - destruct (negb (truthy _)); reflexivity.
  - destruct (nullish (Spec.field tag "excluded")) eqn:Hexc.
    + rewrite get_nullish by (unfold Spec.is_entry; by rewrite Hexc). reflexivity.
    + rewrite get_entry by (unfold Spec.is_entry; by rewrite Hexc). cbn [bind negb].
      destruct (negb (truthy (Spec.field (Spec.field tag "excluded") "length")));
        cbn [filterM bind]; destruct (negb (truthy _)); reflexivity.
Qed.

End Criteria.

Lemma applyFilters_unusable_criteria_witness :
  @applyFilters Sample.plain
     (setFilterData new_FilterHelper FILTER_TYPES.TAG VUndefined false)
     [Sample.alice] = Throw TypeError.
Proof.
  apply (@applyFilters_unusable_criteria Sample.plain); [reflexivity|].
  right. left. reflexivity.
Defined.

Lemma applyFilters_empty_witness :
  @applyFilters Sample.plain (Sample.searching "alice") [] = Ok [].
Proof.
  rewrite (@applyFilters_empty Sample.plain (Sample.searching "alice")); reflexivity.
Defined.

(** ** More on the criteria store *)

Lemma json_differs_same (x : option string) : json_differs x x = false.
Proof. destruct x as [s|]; [|reflexivity]. cbn. by rewrite String.eqb_refl. Qed.

(** X10.  Setting a filter type to the value it was just given leaves the
    instance exactly as it was: no second call of the callback, for every
    value (also one whose serialisation is [undefined]).  One call of
    [setFilterData] calls the callback at most once. *)
Theorem setFilterData_again (this : FilterHelper) (filterType : string)
    (data : value) (suppress again : bool) :
  setFilterData (setFilterData this filterType data suppress) filterType data again =
    setFilterData this filterType data suppress /\
  (dataChanged this <= dataChanged (setFilterData this filterType data suppress)
                    <= S (dataChanged this))%nat.
Proof.
  split.
  - unfold setFilterData at 1. unfold lookup_key.
    assert (Hstored : filterData (setFilterData this filterType data suppress) !! filterType
                      = Some data).
    { unfold setFilterData. destruct (_ && _); cbn [filterData]; apply lookup_insert_eq. }
    rewrite Hstored. cbn [from_option id]. rewrite json_differs_same. cbn [andb].
    unfold setFilterData.
    destruct (_ && _); cbn [filterData filterFunctions dataChanged];
      by rewrite insert_insert_eq.
  - unfold setFilterData. destruct (_ && _); cbn [dataChanged]; lia.
Qed.

(** X11.  Assignments to two different filter types commute: the stored
    criteria and the number of calls of the callback are the same in either
    order. *)
Theorem setFilterData_commute (this : FilterHelper) (k1 k2 : string)
    (v1 v2 : value) (s1 s2 : bool) :
  k1 <> k2 ->
  setFilterData (setFilterData this k1 v1 s1) k2 v2 s2 =
  setFilterData (setFilterData this k2 v2 s2) k1 v1 s1.
Proof.
  intros Hne.
  assert (Hold2 : lookup_key (filterData (setFilterData this k1 v1 s1)) k2
                  = lookup_key (filterData this) k2).
  { unfold setFilterData, lookup_key.
    destruct (_ && _); cbn [filterData]; by rewrite lookup_insert_ne. }
  assert (Hold1 : lookup_key (filterData (setFilterData this k2 v2 s2)) k1
                  = lookup_key (filterData this) k1).
  { unfold setFilterData, lookup_key.
    destruct (_ && _); cbn [filterData]; by rewrite lookup_insert_ne. }
  unfold setFilterData at 1 3. rewrite Hold1, Hold2. unfold setFilterData.
  destruct (json_differs (JSON_stringify (lookup_key (filterData this) k1)) _ && _),
           (json_differs (JSON_stringify (lookup_key (filterData this) k2)) _ && _);
    cbn [filterData filterFunctions dataChanged];
    by rewrite (insert_insert_ne _ k2 k1) by done.
Qed.

Lemma setFilterData_commute_witness :
  setFilterData (Sample.searching "alice") FILTER_TYPES.FAV (VBool true) false =
  setFilterData Sample.favourites FILTER_TYPES.SEARCH (VStr "alice") false.
Proof. apply setFilterData_commute. discriminate. Defined.

(** ** Narrowing by tags *)

Lemma list_filter_sublist_impl {A} (p q : A -> bool) (l : list A) :
  (forall x, q x = true -> p x = true) ->
  List.filter q l `sublist_of` List.filter p l.
Proof.
  intros Hqp. induction l as [|x l IH]; cbn [List.filter]; [constructor|].
  destruct (q x) eqn:Hq.
  - rewrite (Hqp x Hq). by apply sublist_skip.
  - destruct (p x); [by apply sublist_cons | exact IH].
Qed.

Section Narrowing.

Context `{Imports}.

(** X12.  Selecting more tags or excluding more tags can only narrow the
    result of [tagFilter]: its result for the larger criterion is a sub-list
    of its result for the smaller one.  Only the sets of tags matter, not
    their order or repetitions. *)
Theorem tagFilter_narrows (this this' : FilterHelper) (criteria criteria' : value)
    (r1 r2 r1' r2' : loc) (selected excluded selected' excluded' data : list value) :
  filterData this !! FILTER_TYPES.TAG = Some criteria ->
  get criteria "selected" = Ok (VArr r1 selected) ->
  get criteria "excluded" = Ok (VArr r2 excluded) ->
  filterData this' !! FILTER_TYPES.TAG = Some criteria' ->
  get criteria' "selected" = Ok (VArr r1' selected') ->
  get criteria' "excluded" = Ok (VArr r2' excluded') ->
  selected ⊆ selected' -> excluded ⊆ excluded' ->
  forallb Spec.character_well_formed data = true ->
  exists m m', tagFilter this data = Ok m /\ tagFilter this' data = Ok m' /\
               m' `sublist_of` m /\
               (selected' ⊆ selected -> excluded' ⊆ excluded -> m' = m).
Proof.
  intros Hc Hs He Hc' Hs' He' Hsel Hexc Hdata.
  assert (Hmono : forall sel exc sel' exc' e, sel ⊆ sel' -> exc ⊆ exc' ->
            Spec.tag_keeps sel' exc' e = true -> Spec.tag_keeps sel exc e = true).
  { intros sel exc sel' exc' e Hss Hee. rewrite !tag_keeps_iff. intros [Hnone Hall].
    split; [intros tag Htag; by apply Hnone, Hee|].
    destruct Hall as [->|Hall].
    - left. destruct sel as [|t sel]; [reflexivity|].
      exfalso. eapply elem_of_nil, Hss. by left.
    - right. intros tag Htag. by apply Hall, Hss. }
  eexists _, _. split; [|split; [|split]].
  - eapply tagFilter_pure; eauto.
  - eapply tagFilter_pure; eauto.
  - apply list_filter_sublist_impl. intros e. by apply Hmono.
  - intros Hsel' Hexc'. apply list_filter_ext. intros e. apply bool_eq_iff.
    split; by apply Hmono.
Qed.

End Narrowing.

Lemma tagFilter_narrows_witness :
  exists m m',
    @tagFilter Sample.tagged (Sample.tagging [VStr "A"] []) [Sample.alice; Sample.bob] = Ok m /\
    @tagFilter Sample.tagged (Sample.tagging [VStr "nsfw"; VStr "A"] [])
       [Sample.alice; Sample.bob] = Ok m' /\
    m' `sublist_of` m.
Proof.
  destruct (@tagFilter_narrows Sample.tagged
              (Sample.tagging [VStr "A"] []) (Sample.tagging [VStr "nsfw"; VStr "A"] [])
              (Sample.tag_criteria [VStr "A"] []) (Sample.tag_criteria [VStr "nsfw"; VStr "A"] [])
              62%nat 61%nat 62%nat 61%nat
              [VStr "A"] [] [VStr "nsfw"; VStr "A"] [] [Sample.alice; Sample.bob])
    as (m & m' & Hm & Hm' & Hsub & _); try reflexivity.
  - intros x Hx. by right.
  - exists m, m'. auto.
Defined.

(** ** A blank search string *)

Lemma str_includes_empty (s : string) : str_includes s EmptyString = true.
Proof. by destruct s. Qed.

Section Blank.

Context `{Imports}.

(** X13.  A search string made of white space only is not the empty
    criterion: the search stage runs with the empty search value, which
    every name contains.  With fuzzy search off it keeps exactly the entries
    whose payload has a string name, and drops the entries without a
    payload or without a name. *)
Theorem searchFilter_blank (this : FilterHelper) (term : string) (data : list value) :
  fuzzy_search = false ->
  filterData this !! FILTER_TYPES.SEARCH = Some (VStr term) ->
  term <> EmptyString ->
  trim term = EmptyString ->
  forallb (fun e => Spec.is_entry e && Spec.name_well_typed e) data = true ->
  searchFilter this data = Ok (List.filter has_name data).
Proof.
  intros Hfuzzy Hterm Hne Hblank Hdata.
  rewrite (searchFilter_string this term) by assumption. cbv zeta.
  rewrite Hblank. apply filterM_pure. intros e He.
  rewrite forallb_forall in Hdata.
  destruct (andb_prop _ _ (Hdata e (proj1 (list_elem_of_In _ _) He))) as [Hentry Hname].
  rewrite getIsValidSearch_exact by assumption. f_equal.
  unfold Spec.name_matches, has_name.
  destruct (Spec.payload_name e); [apply str_includes_empty | reflexivity].
Qed.

End Blank.

Lemma searchFilter_blank_witness :
  @searchFilter Sample.plain (Sample.searching "  ")
     [Sample.alice; Sample.nameless; Sample.bare_character; Sample.group_g1] =
    Ok [Sample.alice; Sample.group_g1].
Proof.
  rewrite (@searchFilter_blank Sample.plain (Sample.searching "  ") "  ");
    (reflexivity || discriminate).
Defined.

(** ** More on the deck stage *)

(** X14.  A list without deck entries passes the deck stage unchanged (its
    entries being readable), so on such a list and with every criterion at
    its default the stage has no effect. *)
Theorem hideCharactersAlreadyInDeck_no_deck (data : list value) :
  forallb Spec.is_entry data = true ->
  forallb (fun e => negb (Spec.is_kind "deck" e)) data = true ->
  hideCharactersAlreadyInDeck data = Ok data.
Proof.
  intros Hentries Hnone.
  assert (Hdecks : List.filter (Spec.is_kind "deck") data = []).
  { clear Hentries. induction data as [|e data IH]; [reflexivity|].
    cbn [forallb List.filter] in *. apply andb_prop in Hnone as [He Hdata].
    apply negb_true_iff in He. rewrite He. by apply IH. }
  rewrite hideCharactersAlreadyInDeck_pure.
  - unfold Spec.deck_members. rewrite Hdecks. cbn [flat_map]. f_equal.
    by apply list_filter_id.
  - apply decks_deck_well_formed; [exact Hentries|]. by rewrite Hdecks.
Qed.

Lemma hideCharactersAlreadyInDeck_no_deck_witness :
  hideCharactersAlreadyInDeck [Sample.alice; Sample.bare_character; Sample.group_g1] =
    Ok [Sample.alice; Sample.bare_character; Sample.group_g1].
Proof. apply hideCharactersAlreadyInDeck_no_deck; reflexivity. Defined.

(** X15.  Taking entries out of a list never hides more of what is left:
    if the stage succeeds on a list it succeeds on every sub-list, and an
    entry of the sub-list that survived in the whole list survives in the
    sub-list.  A deck removed by an earlier stage of the pipeline hides
    nobody. *)
Theorem hideCharactersAlreadyInDeck_sublist (l m r : list value) :
  hideCharactersAlreadyInDeck l = Ok m ->
  r `sublist_of` l ->
  exists m', hideCharactersAlreadyInDeck r = Ok m' /\
             forall e, e ∈ r -> e ∈ m -> e ∈ m'.
Proof.
  intros Hm Hr. pose proof (hideCharactersAlreadyInDeck_returns _ _ Hm) as Hl.
  rewrite hideCharactersAlreadyInDeck_pure in Hm by exact Hl. injection Hm as <-.
  eexists. split.
  - apply hideCharactersAlreadyInDeck_pure. by eapply forallb_sublist.
  - intros e He [_ Hkept]%elem_of_list_filter. apply elem_of_list_filter.
    split; [exact He|]. apply negb_true_iff in Hkept. apply negb_true_iff.
    destruct (Spec.in_deck (Spec.deck_members r) e) eqn:Hin; [|reflexivity].
    unfold Spec.in_deck in *.
    rewrite (includes_mono _ _ _ (deck_members_sublist r l Hr) Hin) in Hkept.
    discriminate Hkept.
Qed.

Lemma hideCharactersAlreadyInDeck_sublist_witness :
  exists m', hideCharactersAlreadyInDeck [Sample.alice; Sample.bob] = Ok m' /\
             forall e, e ∈ [Sample.alice; Sample.bob] -> e ∈ [Sample.deck; Sample.bob] -> e ∈ m'.
Proof.
  apply (hideCharactersAlreadyInDeck_sublist [Sample.deck; Sample.alice; Sample.bob]).
  - reflexivity.
  - apply sublist_cons. reflexivity.
Defined.

(** ** Histories of the store *)

Lemma setAll_cons (this : FilterHelper) (call : string * value * bool)
    (calls : list (string * value * bool)) :
  setAll this (call :: calls) =
  setAll (setFilterData this (fst (fst call)) (snd (fst call)) (snd call)) calls.
Proof. reflexivity. Qed.

Lemma setFilterData_registered (this : FilterHelper) (k : string) (v : value) (s : bool)
    (k' : string) :
  is_Some (filterData (setFilterData this k v s) !! k') <->
  is_Some (filterData this !! k') \/ k' = k.
Proof.
  unfold setFilterData. destruct (_ && _); cbn [filterData];
    rewrite lookup_insert_is_Some;
    (split; [intros [Heq|[_ Hs]]; [right; by symmetry | by left]
            | intros [Hs|Heq]; [destruct (decide (k = k')); auto | left; by symmetry]]).
Qed.

Lemma setAll_untouched (this : FilterHelper) (calls : list (string * value * bool))
    (k : string) :
  k ∉ keys_of calls ->
  filterData (setAll this calls) !! k = filterData this !! k.
Proof.
  revert this. induction calls as [|[[k' v] s] calls IH]; intros this Hk; [reflexivity|].
  rewrite setAll_cons. cbn [keys_of List.map fst snd] in *.
  apply not_elem_of_cons in Hk as [Hne Hk]. rewrite IH by exact Hk.
  unfold setFilterData. destruct (_ && _); cbn [filterData]; by rewrite lookup_insert_ne.
Qed.

(** X16.  Whatever calls of [setFilterData] are made on an instance, the
    filter functions stay those of the constructor, no filter type is ever
    removed (the registered ones are those registered before and those
    set), the callback is called at most once per call, and a filter type
    holds the value of the last call that set it. *)
Theorem setAll_invariant (this : FilterHelper) (calls : list (string * value * bool)) :
  filterFunctions (setAll this calls) = filterFunctions this /\
  (forall k, is_Some (filterData (setAll this calls) !! k) <->
             is_Some (filterData this !! k) \/ k ∈ keys_of calls) /\
  (dataChanged this <= dataChanged (setAll this calls)
                    <= dataChanged this + List.length calls)%nat /\
  (forall before after k v s,
      calls = before ++ (k, v, s) :: after -> k ∉ keys_of after ->
      filterData (setAll this calls) !! k = Some v).
Proof.
  split; [|split; [|split]].
  - revert this. induction calls as [|[[k v] s] calls IH]; intros this; [reflexivity|].
    rewrite setAll_cons, IH. cbn [fst snd]. unfold setFilterData. by destruct (_ && _).
  - revert this. induction calls as [|[[k v] s] calls IH]; intros this k'.
    + cbn. rewrite elem_of_nil. tauto.
    + rewrite setAll_cons, IH. cbn [keys_of List.map fst snd].
      rewrite setFilterData_registered, elem_of_cons. tauto.
  - revert this. induction calls as [|[[k v] s] calls IH]; intros this.
    + cbn. lia.
    + rewrite setAll_cons. cbn [fst snd List.length].
      specialize (IH (setFilterData this k v s)).
      assert (dataChanged this <= dataChanged (setFilterData this k v s)
                               <= S (dataChanged this))%nat
        by (unfold setFilterData; destruct (_ && _); cbn [dataChanged]; lia).
      lia.
  - intros before after k v s -> Hafter. revert this.
    induction before as [|[[k' v'] s'] before IH]; intros this.
    + cbn [app]. rewrite setAll_cons. cbn [fst snd].
      rewrite setAll_untouched by exact Hafter.
      unfold setFilterData. destruct (_ && _); cbn [filterData]; apply lookup_insert_eq.
    + cbn [app]. rewrite setAll_cons. apply IH.
Qed.

(** ** Reading the store *)

Lemma setAll_last (this : FilterHelper) (before after : list (string * value * bool))
    (k : string) (v : value) (s : bool) :
  k ∉ keys_of after ->
  filterData (setAll this (before ++ (k, v, s) :: after)) !! k = Some v.
Proof.
  intros Hafter. revert this.
  induction before as [|call before IH]; intros this; cbn [app]; rewrite setAll_cons.
  - cbn [fst snd]. rewrite setAll_untouched by exact Hafter.
    unfold setFilterData. destruct (_ && _); cbn [filterData]; apply lookup_insert_eq.
  - apply IH.
Qed.



(** ** The second pass after the deck stage *)

(** With a matcher that judges every entry on its own, whatever its test:
    the deck and both notes have no uid, the first note matches and is then
    hidden by the deck, and on the second pass nothing matches. *)
Lemma second_pass_per_entry_matcher `{Imports} (matches : value -> value -> bool) :
  (forall data term,
     fuzzySearchWorldInfo data term =
     List.map (fun e => Spec.field e "uid") (List.filter (matches term) data)) ->
  matches (VStr "alice") Sample.deck = false ->
  matches (VStr "alice") Sample.note_alice = true ->
  matches (VStr "alice") Sample.note_bob = false ->
  applyFilters (Sample.searching_world_info "alice")
    [Sample.deck; Sample.note_alice; Sample.note_bob] = Ok [Sample.deck; Sample.note_bob] /\
  applyFilters (Sample.searching_world_info "alice") [Sample.deck; Sample.note_bob] = Ok [].
Proof.
  intros Hper Hdeck Halice Hbob.
  assert (Hrun : forall data,
            applyFilters (Sample.searching_world_info "alice") data =
            do found <- wiSearchFilter (Sample.searching_world_info "alice") data;
            hideCharactersAlreadyInDeck found).
  { intros data. unfold applyFilters.
    change (List.map snd (filterFunctions (Sample.searching_world_info "alice")))
      with [SearchFilter; GroupFilter; FavFilter; TagFilter; WiSearchFilter;
            HideCharactersAlreadyInDeck].
    cbn [reduceM call].
    change (searchFilter (Sample.searching_world_info "alice") data) with (Ok data).
    cbn [bind].
    change (groupFilter (Sample.searching_world_info "alice") data) with (Ok data).
    cbn [bind].
    change (favFilter (Sample.searching_world_info "alice") data) with (Ok data).
    cbn [bind].
    change (tagFilter (Sample.searching_world_info "alice") data) with (Ok data).
    cbn [bind].
    destruct (wiSearchFilter _ data); cbn [bind]; [|reflexivity].
    by destruct (hideCharactersAlreadyInDeck a). }
  rewrite !Hrun, !wiSearchFilter_result. cbv zeta.
  change (lookup_key (filterData (Sample.searching_world_info "alice"))
            FILTER_TYPES.WORLD_INFO_SEARCH) with (VStr "alice").
  rewrite !Hper. cbn [truthy String.eqb Ascii.eqb Bool.eqb negb List.filter].
  rewrite Hdeck, Halice, Hbob. split; reflexivity.
Qed.

